(** * Cooperative multi-agent analysis workflow (src/agent/graph.py)

    A shallow embedding of the orchestration code of [graph.py]: the state
    record with its two reducers, the eight node functions, the two routing
    functions and the graph assembled by [build_multi_agent_graph], followed
    by the properties established about them.

    Conventions of the embedding.
    - A Python [str] is the list of its code points, so that [len] is
      [length]. Literals are written as UTF-8 text and decoded by [lit].
    - A key of the state dictionary may be missing; a key declared
      [Optional] may moreover hold [None]. Reads go through [get], which is
      [dict.get] with its default.
    - The agents built by [create_react_agent] and [datetime.now] are the
      only sources of nondeterminism. Both are parameters of the section:
      the answer of the n-th agent invocation and the text of the n-th
      clock reading. Node functions that use them live in the monad [M],
      which records every invocation that was made.
    - Calls to [logger] only write to the log and are left out.
    - [builder.compile()] hands the graph to langgraph. Its execution is
      modelled in the part "Running a graph": supersteps over the nodes that
      are due, updates merged by [apply_update]. *)

From Stdlib Require Import String Ascii NArith ZArith List Lia.
From Corelib Require Import PrimFloat.
From stdpp Require Import gmap list.
Import ListNotations.

Local Open Scope Z_scope.

(** ** Python strings *)

Abbreviation str := (list N).

Definition utf8_step (b : N) (s : N * N * list N) : N * N * list N :=
  let '(pend, sh, out) := s in
  if (b <? 128)%N then (0, 0, b :: out)%N
  else if (b <? 192)%N then ((pend + N.shiftl (b - 128) sh)%N, (sh + 6)%N, out)
  else
    let lead :=
      if (b <? 224)%N then (b - 192)%N
      else if (b <? 240)%N then (b - 224)%N else (b - 240)%N in
    (0%N, 0%N, (N.shiftl lead sh + pend)%N :: out).

(** Code points of a literal given as UTF-8 text. *)
Definition lit (s : string) : str :=
  snd (fold_right utf8_step (0%N, 0%N, []) (map N_of_ascii (list_ascii_of_string s))).

Definition nl : str := [10%N].

(** [sep.join(parts)] *)
Fixpoint join (sep : str) (parts : list str) : str :=
  match parts with
  | [] => []
  | [p] => p
  | p :: rest => p ++ sep ++ join sep rest
  end.

(** [c * n] for a one-character string *)
Definition repeat_char (c : N) (n : nat) : str := repeat c n.

Definition digit_char (d : nat) : N := (48 + N.of_nat d)%N.

Fixpoint digits_fuel (fuel n : nat) (acc : str) : str :=
  match fuel with
  | O => acc
  | S fuel' =>
      let acc' := digit_char (n mod 10) :: acc in
      if (n / 10 =? 0)%nat then acc' else digits_fuel fuel' (n / 10)%nat acc'
  end.

(** [str(n)] for a non-negative integer *)
Definition str_of_nat (n : nat) : str := digits_fuel (S n) n [].

(** ** Reading the state dictionary *)

(** An [Optional] key: missing, holding [None], or holding a value. *)
Inductive field (A : Type) : Type :=
  | Absent
  | PyNone
  | Val (a : A).
Arguments Absent {A}.
Arguments PyNone {A}.
Arguments Val {A} a.

(** [state.get(key, default)]; the result [None] is Python's [None]. *)
Definition get {A} (f : field A) (default : option A) : option A :=
  match f with
  | Absent => default
  | PyNone => None
  | Val a => Some a
  end.

(** Truth value of [x] where [x] is a [str], a list, or [None]. *)
Definition truthy {A} (x : option (list A)) : bool :=
  match x with
  | Some (_ :: _) => true
  | _ => false
  end.

Definition truthy_bool (x : option bool) : bool :=
  match x with
  | Some b => b
  | None => false
  end.

(** [f"{x}"] where [x] is a [str] or [None]. *)
Definition fmt (x : option str) : str :=
  match x with
  | Some s => s
  | None => lit "None"
  end.

Inductive exn : Type :=
  | KeyError (key : str)
  | TypeError.

Inductive result (A : Type) : Type :=
  | Ok (a : A)
  | Err (e : exn).
Arguments Ok {A} a.
Arguments Err {A} e.

Definition is_ok {A} (r : result A) : bool :=
  match r with
  | Ok _ => true
  | Err _ => false
  end.

Definition ok_value {A} (r : result A) : option A :=
  match r with
  | Ok a => Some a
  | Err _ => None
  end.

(** ** Data model *)

Record AgentFeedback : Type := {
  agent_name : str;
  feedback_type : str;
  feedback_content : str;
  confidence_score : float;
  suggested_improvements : list str
}.

Inductive Message : Type :=
  | HumanMessage (content : str)
  | AIMessage (content : str).

Definition content (m : Message) : str :=
  match m with
  | HumanMessage c => c
  | AIMessage c => c
  end.

Definition isinstance_AIMessage (m : Message) : bool :=
  match m with
  | AIMessage _ => true
  | HumanMessage _ => false
  end.

(** The second argument of [add_analyses]: a list, or a bare string. *)
Inductive analyses_arg : Type :=
  | OneStr (s : str)
  | StrList (l : list str).

Definition add_analyses (existing : option (list str)) (new : analyses_arg) : list str :=
  let existing := match existing with None => [] | Some l => l end in
  let new := match new with OneStr s => [s] | StrList l => l end in
  existing ++ new.

(** [{**existing, **new}]: the keys of [new] win. *)
Definition add_completion_status (existing : option (gmap str bool)) (new : gmap str bool)
  : gmap str bool :=
  let existing := match existing with None => ∅ | Some m => m end in
  new ∪ existing.

(** [add_messages] of langgraph, for messages without identifiers: append. *)
Definition add_messages (existing : option (list Message)) (new : list Message)
  : list Message :=
  match existing with None => [] | Some l => l end ++ new.

Record MultiAgentState : Type := {
  messages : option (list Message);
  original_query : field str;
  analyses : option (list str);
  agent_feedbacks : field (list AgentFeedback);
  revision_count : field Z;
  consensus_reached : field bool;
  final_report : field str;
  workflow_stage : field str;
  completion_status : option (gmap str bool)
}.

(** The dictionary a node returns: the keys it writes. *)
Record Update : Type := {
  u_messages : option (list Message);
  u_original_query : option str;
  u_analyses : option (list str);
  u_agent_feedbacks : option (list AgentFeedback);
  u_revision_count : option Z;
  u_consensus_reached : option bool;
  u_final_report : option str;
  u_workflow_stage : option str;
  u_completion_status : option (gmap str bool)
}.

Definition overwrite {A} (old : field A) (new : option A) : field A :=
  match new with
  | Some a => Val a
  | None => old
  end.

(** How the engine folds a node's update into the state: the annotated keys
    go through their reducer, every other key is overwritten. *)
Definition apply_update (st : MultiAgentState) (u : Update) : MultiAgentState :=
  {| messages :=
       match u_messages u with
       | Some new => Some (add_messages (messages st) new)
       | None => messages st
       end;
     original_query := overwrite (original_query st) (u_original_query u);
     analyses :=
       match u_analyses u with
       | Some new => Some (add_analyses (analyses st) (StrList new))
       | None => analyses st
       end;
     agent_feedbacks := overwrite (agent_feedbacks st) (u_agent_feedbacks u);
     revision_count := overwrite (revision_count st) (u_revision_count u);
     consensus_reached := overwrite (consensus_reached st) (u_consensus_reached u);
     final_report := overwrite (final_report st) (u_final_report u);
     workflow_stage := overwrite (workflow_stage st) (u_workflow_stage u);
     completion_status :=
       match u_completion_status u with
       | Some new => Some (add_completion_status (completion_status st) new)
       | None => completion_status st
       end |}.

(** ** Keys, stage names and node names *)

Definition k_fundamental : str := Eval vm_compute in lit "fundamental".
Definition k_technical : str := Eval vm_compute in lit "technical".
Definition k_risk : str := Eval vm_compute in lit "risk".

Definition END : str := Eval vm_compute in lit "__end__".
Definition n_coordinator : str := Eval vm_compute in lit "coordinator".
Definition n_fundamental_analysis : str := Eval vm_compute in lit "fundamental_analysis".
Definition n_technical_analysis : str := Eval vm_compute in lit "technical_analysis".
Definition n_risk_analysis : str := Eval vm_compute in lit "risk_analysis".
Definition n_wait_for_analyses : str := Eval vm_compute in lit "wait_for_analyses".
Definition n_peer_review : str := Eval vm_compute in lit "peer_review".
Definition n_senior_synthesis : str := Eval vm_compute in lit "senior_synthesis".
Definition n_consensus_check : str := Eval vm_compute in lit "consensus_check".

(** ** Nodes and routing functions that use neither agent nor clock *)

(** [completion_status.get(key, False)] *)
Definition flag (cs : gmap str bool) (key : str) : bool :=
  default false (cs !! key).

Definition completed_flags (st : MultiAgentState) : list bool :=
  let completion_status := default ∅ (completion_status st) in
  [flag completion_status k_fundamental;
   flag completion_status k_technical;
   flag completion_status k_risk].

(** Python's [all] *)
Definition all (l : list bool) : bool := forallb id l.

Definition wait_for_analyses_node (st : MultiAgentState) : Update :=
  if all (completed_flags st) then
    {| u_messages :=
         Some [AIMessage (lit "📝 所有专业分析已完成，正在准备同行评议...")];
       u_original_query := None; u_analyses := None; u_agent_feedbacks := None;
       u_revision_count := None; u_consensus_reached := None;
       u_final_report := None;
       u_workflow_stage := Some (lit "all_analyses_completed");
       u_completion_status := None |}
  else
    {| u_messages := None;
       u_original_query := None; u_analyses := None; u_agent_feedbacks := None;
       u_revision_count := None; u_consensus_reached := None;
       u_final_report := None;
       u_workflow_stage := Some (lit "waiting_for_analyses");
       u_completion_status := None |}.

(** The dictionary [consensus_check_node] returns. *)
Definition consensus_update (consensus_reached : bool) (revision_count : Z) : Update :=
  {| u_messages := None; u_original_query := None; u_analyses := None;
     u_agent_feedbacks := None;
     u_revision_count := Some revision_count;
     u_consensus_reached := Some consensus_reached;
     u_final_report := None;
     u_workflow_stage := Some (lit "consensus_checked");
     u_completion_status := None |}.

(** [None < 2] and [len(None)] raise [TypeError]. *)
Definition consensus_check_node (st : MultiAgentState) : result Update :=
  match get (revision_count st) (Some 0) with
  | None => Err TypeError
  | Some revision_count =>
      if revision_count <? 2 then
        match get (final_report st) (Some []) with
        | None => Err TypeError
        | Some final_report =>
            if Z.of_nat (length final_report) >? 500
            then Ok (consensus_update true revision_count)
            else Ok (consensus_update false (revision_count + 1))
        end
      else Ok (consensus_update true revision_count)
  end.

Definition check_consensus_routing (st : MultiAgentState) : str :=
  if truthy_bool (get (consensus_reached st) (Some false))
  then END
  else n_peer_review.

Definition check_analyses_completion (st : MultiAgentState) : str :=
  if all (completed_flags st)
  then n_peer_review
  else n_wait_for_analyses.

(** ** Agents, clock and the monad of node functions *)

Inductive Agent : Type :=
  | fundamental_agent
  | technical_agent
  | risk_agent
  | senior_agent.

(** What [agent.invoke({"messages": [HumanMessage(content=task)]})] followed
    by [result["messages"][-1].content] gives: the content, or an exception
    [e], kept as [str(e)]. *)
Inductive Outcome : Type :=
  | Returned (content : str)
  | Raised (message : str).

(** The agent invocations made so far, oldest first, and the number of
    clock readings. *)
Record World : Type := {
  invocations : list (Agent * str);
  clock_reads : nat
}.

Definition world0 : World := {| invocations := []; clock_reads := 0 |}.

(** The float that the literal [0.8] denotes. *)
Definition float_0_8 : float := 0x1.999999999999ap-1%float.

Definition oracle : Type := nat -> Agent -> str -> Outcome.
Definition clock : Type := nat -> str.

Definition M (A : Type) : Type := World -> A * World.

Definition ret {A} (a : A) : M A := fun w => (a, w).

Definition bind {A B} (c : M A) (k : A -> M B) : M B :=
  fun w => let '(a, w') := c w in k a w'.

Notation "'let*' x ':=' c 'in' k" := (bind c (fun x => k))
  (at level 10, x name, c at level 100, k at level 200).

Section Nodes.

Variable agent_invoke : oracle.
Variable now : clock.

Definition invoke (a : Agent) (task : str) : M Outcome :=
  fun w =>
    (agent_invoke (length (invocations w)) a task,
     {| invocations := invocations w ++ [(a, task)];
        clock_reads := clock_reads w |}).

(** [datetime.now().strftime("%Y-%m-%d %H:%M:%S")] *)
Definition strftime_now : M str :=
  fun w =>
    (now (clock_reads w),
     {| invocations := invocations w; clock_reads := S (clock_reads w) |}).

(** ** Output formatting *)

Definition format_analysis_output (title content agent_name : str) : M str :=
  let separator := repeat_char 61 60 in
  let* timestamp := strftime_now in
  ret (nl ++
       separator ++ nl ++
       lit "📊 " ++ title ++ nl ++
       lit "👨‍💼 分析师：" ++ agent_name ++ nl ++
       lit "⏰ 分析时间：" ++ timestamp ++ nl ++
       separator ++ nl ++
       nl ++
       content ++ nl ++
       nl ++
       separator ++ nl).

(** [enumerate(l, start)] *)
Definition enumerate {A} (l : list A) (start : nat) : list (nat * A) :=
  combine (seq start (length l)) l.

Definition format_review_output (reviews : list str) : M str :=
  let separator := repeat_char 61 60 in
  let* timestamp := strftime_now in
  let formatted_content :=
    nl ++
    separator ++ nl ++
    lit "🔍 同行评议阶段" ++ nl ++
    lit "⏰ 评议时间：" ++ timestamp ++ nl ++
    separator ++ nl ++
    nl in
  let formatted_content :=
    fold_left
      (fun formatted_content '(i, review) =>
         formatted_content ++
         lit "📝 评议 " ++ str_of_nat i ++ lit ":" ++ nl ++ review ++ nl ++ nl)
      (enumerate reviews 1) formatted_content in
  ret (formatted_content ++ separator ++ nl).

Definition format_final_report (content : str) : M str :=
  let separator := repeat_char 61 80 in
  let* timestamp := strftime_now in
  ret (nl ++
       separator ++ nl ++
       lit "🎯 最终综合投资分析报告" ++ nl ++
       lit "📈 多Agent协作完成" ++ nl ++
       lit "⏰ 报告时间：" ++ timestamp ++ nl ++
       separator ++ nl ++
       nl ++
       content ++ nl ++
       nl ++
       separator ++ nl ++
       lit "✅ 报告完成 - 基于多专家协作与同行评议" ++ nl ++
       separator ++ nl).

(** ** Coordinator and the three analysis nodes *)

(** [state["messages"][0].content], read only where the list is known to be
    non-empty. *)
Definition first_message_content (st : MultiAgentState) : str :=
  match messages st with
  | Some (m :: _) => content m
  | _ => []
  end.

Definition coordinator_node (st : MultiAgentState) : M Update :=
  let user_query :=
    if truthy (get (original_query st) None)
    then fmt (get (original_query st) None)
    else if truthy (messages st)
    then first_message_content st
    else [] in
  let* start_message :=
    format_analysis_output
      (lit "多Agent协作分析启动")
      (lit "任务内容：" ++ user_query ++ nl ++
       lit "正在调度基本面分析师、技术分析师、风险分析师进行并行分析...")
      (lit "系统协调器") in
  ret {| u_messages := Some [AIMessage start_message];
         u_original_query := Some user_query;
         u_analyses := None; u_agent_feedbacks := None;
         u_revision_count := None; u_consensus_reached := None;
         u_final_report := None;
         u_workflow_stage := Some (lit "coordination_started");
         u_completion_status := Some ∅ |}.

(** The query an analysis node works on: [original_query], or the first
    message when that is missing, [None] or empty. Nothing is raised when
    both are empty: the query is then the empty string, or [None]. *)
Definition node_query (st : MultiAgentState) : option str :=
  let query := get (original_query st) (Some []) in
  if negb (truthy query) && truthy (messages st)
  then Some (first_message_content st)
  else query.

Definition analysis_update (message analysis : str) (key : str) (done : bool) : Update :=
  {| u_messages := Some [AIMessage message];
     u_original_query := None;
     u_analyses := Some [analysis];
     u_agent_feedbacks := None; u_revision_count := None;
     u_consensus_reached := None; u_final_report := None;
     u_workflow_stage := None;
     u_completion_status := Some {[ key := done ]} |}.

Definition fundamental_analysis_node (st : MultiAgentState) : M Update :=
  let query := node_query st in
  let task := lit "请对以下投资标的进行深入的基本面分析: " ++ fmt query in
  let* result := invoke fundamental_agent task in
  match result with
  | Returned analysis_content =>
      let* formatted_output :=
        format_analysis_output (lit "基本面分析报告") analysis_content
          (lit "基本面分析专家") in
      ret (analysis_update formatted_output
             (lit "基本面分析: " ++ analysis_content) k_fundamental true)
  | Raised e =>
      let* error_msg :=
        format_analysis_output (lit "基本面分析报告")
          (lit "分析过程中出现错误: " ++ e) (lit "基本面分析专家") in
      ret (analysis_update error_msg
             (lit "基本面分析: 分析失败 - " ++ e) k_fundamental false)
  end.

Definition technical_analysis_node (st : MultiAgentState) : M Update :=
  let query := node_query st in
  let task := lit "请对以下投资标的进行专业的技术面分析: " ++ fmt query in
  let* result := invoke technical_agent task in
  match result with
  | Returned analysis_content =>
      let* formatted_output :=
        format_analysis_output (lit "技术分析报告") analysis_content
          (lit "技术分析专家") in
      ret (analysis_update formatted_output
             (lit "技术分析: " ++ analysis_content) k_technical true)
  | Raised e =>
      let* error_msg :=
        format_analysis_output (lit "技术分析报告")
          (lit "分析过程中出现错误: " ++ e) (lit "技术分析专家") in
      ret (analysis_update error_msg
             (lit "技术分析: 分析失败 - " ++ e) k_technical false)
  end.

Definition risk_analysis_node (st : MultiAgentState) : M Update :=
  let query := node_query st in
  let task := lit "请对以下投资标的进行全面的风险评估: " ++ fmt query in
  let* result := invoke risk_agent task in
  match result with
  | Returned analysis_content =>
      let* formatted_output :=
        format_analysis_output (lit "风险评估报告") analysis_content
          (lit "风险管理专家") in
      ret (analysis_update formatted_output
             (lit "风险分析: " ++ analysis_content) k_risk true)
  | Raised e =>
      let* error_msg :=
        format_analysis_output (lit "风险评估报告")
          (lit "分析过程中出现错误: " ++ e) (lit "风险管理专家") in
      ret (analysis_update error_msg
             (lit "风险分析: 分析失败 - " ++ e) k_risk false)
  end.

(** ** Peer review *)

Definition fundamental_review_task (combined_analysis : str) : str :=
  lit "
    作为基本面分析专家，请评审以下技术分析和风险分析的质量：
    
    " ++
  combined_analysis ++
  lit "
    
    请重点关注：
    1. 分析逻辑是否合理
    2. 是否与基本面分析结果一致
    3. 有哪些遗漏或错误
    4. 提出具体改进建议
    
    格式：【基本面分析师评审】
    评审意见：...
    改进建议：...
    ".

Definition technical_review_task (combined_analysis : str) : str :=
  lit "
    作为技术分析专家，请评审以下基本面分析和风险分析的质量：
    
    " ++
  combined_analysis ++
  lit "
    
    请重点关注：
    1. 分析是否结合了市场技术面情况
    2. 时机判断是否合理
    3. 价格目标是否符合技术面支撑
    4. 提出具体改进建议
    
    格式：【技术分析师评审】
    评审意见：...
    改进建议：...
    ".

Definition risk_review_task (combined_analysis : str) : str :=
  lit "
    作为风险管理专家，请评审以下基本面分析和技术分析的质量：
    
    " ++
  combined_analysis ++
  lit "
    
    请重点关注：
    1. 风险因素是否被充分识别
    2. 风险评估是否客观准确
    3. 风险控制建议是否实用
    4. 提出具体改进建议
    
    格式：【风险分析师评审】
    评审意见：...
    改进建议：...
    ".

(** One [try]/[except] block of the review: the entry appended to
    [feedbacks]. *)
Definition review (a : Agent) (task header failed : str) : M str :=
  let* result := invoke a task in
  match result with
  | Returned c => ret (header ++ nl ++ c)
  | Raised _ => ret failed
  end.

Definition peer_review_node (st : MultiAgentState) : M Update :=
  let analyses := default [] (analyses st) in
  let combined_analysis := join (nl ++ nl) analyses in
  if negb (truthy (Some combined_analysis)) then
    ret {| u_messages := Some [AIMessage (lit "【同行评议】没有分析结果可供评议")];
           u_original_query := None; u_analyses := None;
           u_agent_feedbacks := None; u_revision_count := None;
           u_consensus_reached := None; u_final_report := None;
           u_workflow_stage := Some (lit "peer_review_completed");
           u_completion_status := None |}
  else
    let feedbacks := [] in
    let* r := review fundamental_agent (fundamental_review_task combined_analysis)
           (lit "【基本面分析师评审】") (lit "【基本面分析师评审】评审过程中出现错误") in
    let feedbacks := feedbacks ++ [r] in
    let* r := review technical_agent (technical_review_task combined_analysis)
           (lit "【技术分析师评审】") (lit "【技术分析师评审】评审过程中出现错误") in
    let feedbacks := feedbacks ++ [r] in
    let* r := review risk_agent (risk_review_task combined_analysis)
           (lit "【风险分析师评审】") (lit "【风险分析师评审】评审过程中出现错误") in
    let feedbacks := feedbacks ++ [r] in
    let* formatted_feedback := format_review_output feedbacks in
    ret {| u_messages := Some [AIMessage formatted_feedback];
           u_original_query := None; u_analyses := None;
           u_agent_feedbacks :=
             Some [ {| agent_name := lit "peer_review";
                       feedback_type := lit "critique";
                       feedback_content := formatted_feedback;
                       confidence_score := float_0_8;
                       suggested_improvements := [lit "基于评议结果优化分析"] |} ];
           u_revision_count := None;
           u_consensus_reached := None; u_final_report := None;
           u_workflow_stage := Some (lit "peer_review_completed");
           u_completion_status := None |}.

(** ** Synthesis *)

Definition synthesis_task (combined_content : str) : str :=
  lit "
    作为资深投资总监，请基于以下专业分析师的工作成果和同行评议结果，
    形成最终的综合投资分析报告：
    
    " ++
  combined_content ++
  lit "
    
    请提供：
    1. 📋 执行摘要
    2. 🎯 综合投资建议
    3. ⚠️ 关键风险提示
    4. 📊 投资评级和目标价位
    5. 🔍 各专业分析的整合和质量评估
    
    要求：
    - 逻辑清晰，结论明确
    - 充分考虑各方意见
    - 识别并解决分析中的矛盾
    - 提供实用的投资指导
    - 格式美观，条理清晰
    ".

Definition senior_synthesis_node (st : MultiAgentState) : M (result Update) :=
  match messages st with
  | None => ret (Err (KeyError (lit "messages")))
  | Some msgs =>
      let all_content := map content (List.filter isinstance_AIMessage msgs) in
      let combined_content := join (nl ++ nl) all_content in
      let* result := invoke senior_agent (synthesis_task combined_content) in
      match result with
      | Returned final_report_content =>
          let* formatted_final_report := format_final_report final_report_content in
          ret (Ok {| u_messages := Some [AIMessage formatted_final_report];
                     u_original_query := None; u_analyses := None;
                     u_agent_feedbacks := None; u_revision_count := None;
                     u_consensus_reached := Some true;
                     u_final_report := Some final_report_content;
                     u_workflow_stage := Some (lit "synthesis_completed");
                     u_completion_status := None |})
      | Raised e =>
          let* error_report :=
            format_final_report (lit "综合分析过程中出现错误: " ++ e) in
          ret (Ok {| u_messages := Some [AIMessage error_report];
                     u_original_query := None; u_analyses := None;
                     u_agent_feedbacks := None; u_revision_count := None;
                     u_consensus_reached := Some true;
                     u_final_report := Some (lit "综合分析失败: " ++ e);
                     u_workflow_stage := Some (lit "synthesis_failed");
                     u_completion_status := None |})
      end
  end.

End Nodes.

(** ** The graph *)

Fixpoint eqb_str (a b : str) : bool :=
  match a, b with
  | [], [] => true
  | x :: a', y :: b' => (x =? y)%N && eqb_str a' b'
  | _, _ => false
  end.

(** [d[key]] on a dictionary written as a list of items. *)
Fixpoint assoc {A} (key : str) (d : list (str * A)) : option A :=
  match d with
  | [] => None
  | (k, v) :: d' => if eqb_str key k then Some v else assoc key d'
  end.

Definition START : str := Eval vm_compute in lit "__start__".

Definition node_fn : Type := MultiAgentState -> M (result Update).

(** What the calls on a [StateGraph] builder record: [add_node],
    [add_edge] and [add_conditional_edges] (source, routing function, and
    the table from its results to nodes). *)
Record StateGraph : Type := {
  nodes : list (str * node_fn);
  edges : list (str * str);
  conditional_edges : list (str * (MultiAgentState -> str) * list (str * str))
}.

Definition returns (f : MultiAgentState -> M Update) : node_fn :=
  fun st => let* u := f st in ret (Ok u).

Definition build_multi_agent_graph (agent_invoke : oracle) (now : clock) : StateGraph :=
  {| nodes :=
       [ (n_coordinator, returns (coordinator_node now));
         (n_fundamental_analysis, returns (fundamental_analysis_node agent_invoke now));
         (n_technical_analysis, returns (technical_analysis_node agent_invoke now));
         (n_risk_analysis, returns (risk_analysis_node agent_invoke now));
         (n_wait_for_analyses, fun st => ret (Ok (wait_for_analyses_node st)));
         (n_peer_review, returns (peer_review_node agent_invoke now));
         (n_senior_synthesis, senior_synthesis_node agent_invoke now);
         (n_consensus_check, fun st => ret (consensus_check_node st)) ];
     edges :=
       [ (START, n_coordinator);
         (n_coordinator, n_fundamental_analysis);
         (n_coordinator, n_technical_analysis);
         (n_coordinator, n_risk_analysis);
         (n_fundamental_analysis, n_wait_for_analyses);
         (n_technical_analysis, n_wait_for_analyses);
         (n_risk_analysis, n_wait_for_analyses);
         (n_peer_review, n_senior_synthesis);
         (n_senior_synthesis, n_consensus_check) ];
     conditional_edges :=
       [ (n_wait_for_analyses, check_analyses_completion,
          [ (n_peer_review, n_peer_review);
            (n_wait_for_analyses, n_wait_for_analyses) ]);
         (n_consensus_check, check_consensus_routing,
          [ (END, END);
            (n_peer_review, n_peer_review) ]) ] |}.

(** ** Running a graph

    The engine that [builder.compile()] returns is langgraph's; what follows
    is its execution in supersteps. All nodes that are due run against the
    same state, their updates are then folded into it with [apply_update],
    and the nodes due next are the targets of the edges that leave the nodes
    that ran. A routing function sees the state together with the update of
    the node it leaves. A node reached over several edges in one superstep
    runs once. The run is over when no node is due.

    Nodes due together run here, and their updates are merged, in the order
    in which they became due; the engine may run them concurrently and
    merges their updates in the order of the node names. The engine also
    gives up with an error of its own after a configured number of
    supersteps (25 unless the caller says otherwise); the model has no such
    limit and no such error, so [Failed] always carries the exception of a
    node. *)

Inductive Run : Type :=
  | Running (st : MultiAgentState) (due : list str) (w : World)
  | Finished (st : MultiAgentState) (w : World)
  | Failed (e : exn) (w : World).

Definition targets (g : StateGraph) (name : str) (local : MultiAgentState) : list str :=
  map snd (List.filter (fun e => eqb_str (fst e) name) (edges g)) ++
  flat_map
    (fun '(source, path, path_map) =>
       if eqb_str source name
       then match assoc (path local) path_map with
            | Some target => [target]
            | None => []
            end
       else [])
    (conditional_edges g).

Fixpoint mem_str (x : str) (l : list str) : bool :=
  match l with
  | [] => false
  | y :: l' => eqb_str x y || mem_str x l'
  end.

(** Keeps the first occurrence of each name. *)
Fixpoint dedup_names (seen l : list str) : list str :=
  match l with
  | [] => []
  | x :: l' =>
      if mem_str x seen then dedup_names seen l'
      else x :: dedup_names (x :: seen) l'
  end.

Fixpoint run_nodes (g : StateGraph) (st : MultiAgentState) (due : list str)
  : M (result (list (str * Update))) :=
  match due with
  | [] => ret (Ok [])
  | name :: rest =>
      match assoc name (nodes g) with
      | None => ret (Err (KeyError name))
      | Some f =>
          let* r := f st in
          match r with
          | Err e => ret (Err e)
          | Ok u =>
              let* rs := run_nodes g st rest in
              match rs with
              | Err e => ret (Err e)
              | Ok writes => ret (Ok ((name, u) :: writes))
              end
          end
      end
  end.

Definition next_due (g : StateGraph) (st : MultiAgentState) (writes : list (str * Update))
  : list str :=
  dedup_names []
    (List.filter (fun n => negb (eqb_str n END))
       (flat_map (fun '(name, u) => targets g name (apply_update st u)) writes)).

Definition superstep (g : StateGraph) (st : MultiAgentState) (due : list str) (w : World)
  : Run :=
  match run_nodes g st due w with
  | (Err e, w') => Failed e w'
  | (Ok writes, w') =>
      let st' := fold_left apply_update (map snd writes) st in
      match next_due g st writes with
      | [] => Finished st' w'
      | due' => Running st' due' w'
      end
  end.

Definition step (g : StateGraph) (r : Run) : Run :=
  match r with
  | Running st due w => superstep g st due w
  | _ => r
  end.

Fixpoint steps (g : StateGraph) (n : nat) (r : Run) : Run :=
  match n with
  | O => r
  | S n' => steps g n' (step g r)
  end.

(** [graph.invoke(input)], cut after [n] supersteps. *)
Definition graph_invoke (g : StateGraph) (input : MultiAgentState) (n : nat) : Run :=
  steps g n (Running input (targets g START input) world0).

Definition is_finished (r : Run) : bool :=
  match r with
  | Finished _ _ => true
  | _ => false
  end.

Definition run_state (r : Run) : option MultiAgentState :=
  match r with
  | Running st _ _ => Some st
  | Finished st _ => Some st
  | Failed _ _ => None
  end.

Definition run_world (r : Run) : World :=
  match r with
  | Running _ _ w => w
  | Finished _ w => w
  | Failed _ w => w
  end.

(** The nodes that are due, none once the run is over. *)
Definition run_due (r : Run) : list str :=
  match r with
  | Running _ due _ => due
  | _ => []
  end.

(** ** Inputs used in the examples *)

Definition empty_state : MultiAgentState :=
  {| messages := None; original_query := Absent; analyses := None;
     agent_feedbacks := Absent; revision_count := Absent;
     consensus_reached := Absent; final_report := Absent;
     workflow_stage := Absent; completion_status := None |}.

(** The input [{"messages": [HumanMessage(content=query)]}]. *)
Definition input_of_query (query : str) : MultiAgentState :=
  {| messages := Some [HumanMessage query]; original_query := Absent;
     analyses := None; agent_feedbacks := Absent; revision_count := Absent;
     consensus_reached := Absent; final_report := Absent;
     workflow_stage := Absent; completion_status := None |}.

Definition fixed_clock : clock := fun _ => lit "2025-01-01 00:00:00".

(** Every agent answers with the same short text. *)
Definition short_answers : oracle := fun _ _ _ => Returned (lit "ok").

(** Every agent answers with a text of 600 characters. *)
Definition long_answers : oracle := fun _ _ _ => Returned (repeat_char 97 600).

(** Every invocation raises. *)
Definition always_raises : oracle := fun _ _ _ => Raised (lit "timeout").

(** Only the fundamental analyst raises. *)
Definition fundamental_raises : oracle :=
  fun _ a _ =>
    match a with
    | fundamental_agent => Raised (lit "timeout")
    | _ => Returned (repeat_char 97 600)
    end.

(** The three analysis roles, to state what their nodes share. *)
Inductive role : Type :=
  | fundamental
  | technical
  | risk.

Definition role_key (r : role) : str :=
  match r with
  | fundamental => k_fundamental
  | technical => k_technical
  | risk => k_risk
  end.

(** The name of the role's node in the graph. *)
Definition node_name (r : role) : str :=
  match r with
  | fundamental => n_fundamental_analysis
  | technical => n_technical_analysis
  | risk => n_risk_analysis
  end.

Definition role_agent (r : role) : Agent :=
  match r with
  | fundamental => fundamental_agent
  | technical => technical_agent
  | risk => risk_agent
  end.

(** The tag that opens the role's entry in [analyses]. *)
Definition role_tag (r : role) : str :=
  match r with
  | fundamental => lit "基本面分析: "
  | technical => lit "技术分析: "
  | risk => lit "风险分析: "
  end.

Definition role_task (r : role) (st : MultiAgentState) : str :=
  match r with
  | fundamental => lit "请对以下投资标的进行深入的基本面分析: "
  | technical => lit "请对以下投资标的进行专业的技术面分析: "
  | risk => lit "请对以下投资标的进行全面的风险评估: "
  end ++ fmt (node_query st).

Definition executor_node (r : role) (agent_invoke : oracle) (now : clock)
  : MultiAgentState -> M Update :=
  match r with
  | fundamental => fundamental_analysis_node agent_invoke now
  | technical => technical_analysis_node agent_invoke now
  | risk => risk_analysis_node agent_invoke now
  end.

(** The completion flags of a state, [{}] when the key is missing. *)
Definition flags (st : MultiAgentState) : gmap str bool :=
  default ∅ (completion_status st).

(** A state with three analyses and an older feedback record. *)
Definition review_input : MultiAgentState :=
  {| messages := Some [HumanMessage (lit "Evaluate Company X")];
     original_query := Val (lit "Evaluate Company X");
     analyses := Some [lit "基本面分析: a"; lit "技术分析: b"; lit "风险分析: c"];
     agent_feedbacks :=
       Val [ {| agent_name := lit "peer_review"; feedback_type := lit "critique";
               feedback_content := lit "older review";
               confidence_score := float_0_8;
               suggested_improvements := [lit "基于评议结果优化分析"] |} ];
     revision_count := Val 1;
     consensus_reached := Val false; final_report := Val (lit "short");
     workflow_stage := Val (lit "consensus_checked");
     completion_status :=
       Some (<[k_fundamental := true]> (<[k_technical := true]> {[k_risk := true]})) |}.

(** The task the synthesis builds from the messages of a state. *)
Definition synthesis_task_of (msgs : list Message) : str :=
  synthesis_task
    (join (nl ++ nl) (map content (List.filter isinstance_AIMessage msgs))).

(** The report the synthesis stores, given how its invocation ended. *)
Definition stored_report (o : Outcome) : str :=
  match o with
  | Returned c => c
  | Raised e => lit "综合分析失败: " ++ e
  end.

Definition raises (o : Outcome) : bool :=
  match o with
  | Raised _ => true
  | Returned _ => false
  end.

(** The state after the coordinator has run on [input] in a fresh world. *)
Definition after_coordinator (now : clock) (input : MultiAgentState) : MultiAgentState :=
  apply_update input (fst (coordinator_node now input world0)).

(** The place of a role's invocation among the three of the fan-out. *)
Definition role_index (r : role) : nat :=
  match r with
  | fundamental => 0
  | technical => 1
  | risk => 2
  end.

(** The input of the consensus gate: the two keys it reads. *)
Definition gate_input (revision_count : field Z) (final_report : field str)
  : MultiAgentState :=
  {| messages := None; original_query := Absent; analyses := None;
     agent_feedbacks := Absent; revision_count := revision_count;
     consensus_reached := Absent; final_report := final_report;
     workflow_stage := Absent; completion_status := None |}.

(** The entry one review adds to [feedbacks], given how the invocation
    ended. *)
Definition review_entry (o : Outcome) (header failed : str) : str :=
  match o with
  | Returned c => header ++ nl ++ c
  | Raised _ => failed
  end.

(** The three entries of a review of [combined_analysis] that starts in
    world [w]. *)
Definition review_entries (agent_invoke : oracle) (combined_analysis : str) (w : World)
  : list str :=
  let n := length (invocations w) in
  [ review_entry
      (agent_invoke n fundamental_agent (fundamental_review_task combined_analysis))
      (lit "【基本面分析师评审】") (lit "【基本面分析师评审】评审过程中出现错误");
    review_entry
      (agent_invoke (S n) technical_agent (technical_review_task combined_analysis))
      (lit "【技术分析师评审】") (lit "【技术分析师评审】评审过程中出现错误");
    review_entry
      (agent_invoke (S (S n)) risk_agent (risk_review_task combined_analysis))
      (lit "【风险分析师评审】") (lit "【风险分析师评审】评审过程中出现错误") ].

(** The three invocations of that review, in the order they are made. *)
Definition review_invocations (combined_analysis : str) : list (Agent * str) :=
  [ (fundamental_agent, fundamental_review_task combined_analysis);
    (technical_agent, technical_review_task combined_analysis);
    (risk_agent, risk_review_task combined_analysis) ].

(** The one record a review returns, around its formatted text. *)
Definition peer_review_record (formatted_feedback : str) : AgentFeedback :=
  {| agent_name := lit "peer_review";
     feedback_type := lit "critique";
     feedback_content := formatted_feedback;
     confidence_score := float_0_8;
     suggested_improvements := [lit "基于评议结果优化分析"] |}.

(** The update a review returns around its formatted text. *)
Definition peer_review_update (formatted_feedback : str) : Update :=
  {| u_messages := Some [AIMessage formatted_feedback];
     u_original_query := None; u_analyses := None;
     u_agent_feedbacks := Some [peer_review_record formatted_feedback];
     u_revision_count := None;
     u_consensus_reached := None; u_final_report := None;
     u_workflow_stage := Some (lit "peer_review_completed");
     u_completion_status := None |}.

(** The text of the analyses a review works on. *)
Definition combined_analysis (st : MultiAgentState) : str :=
  join (nl ++ nl) (default [] (analyses st)).

(** The records in the update a node returned. *)
Definition written_feedbacks (out : result Update * World) : list AgentFeedback :=
  match fst out with
  | Ok u => default [] (u_agent_feedbacks u)
  | Err _ => []
  end.



(** The text of the message the coordinator writes. *)
Definition coordinator_message (now : clock) (st : MultiAgentState) (w : World) : str :=
  match u_messages (fst (coordinator_node now st w)) with
  | Some (m :: _) => content m
  | _ => []
  end.

(** The query the coordinator settles on, read off the update it returns. *)
Definition coordinator_query (now : clock) (st : MultiAgentState) (w : World) : str :=
  default [] (u_original_query (fst (coordinator_node now st w))).

Definition is_failed (r : Run) : bool :=
  match r with
  | Failed _ _ => true
  | _ => false
  end.

(** Two states that differ in everything the synthesis does not read: the
    human message, the query, the analyses and the feedback. *)
Definition synthesis_input_a : MultiAgentState :=
  {| messages := Some [HumanMessage (lit "Evaluate Company X");
                       AIMessage (lit "analysis"); AIMessage (lit "review")];
     original_query := Val (lit "Evaluate Company X");
     analyses := Some [lit "基本面分析: a"];
     agent_feedbacks := Absent; revision_count := Absent;
     consensus_reached := Absent; final_report := Absent;
     workflow_stage := Absent; completion_status := None |}.

Definition synthesis_input_b : MultiAgentState :=
  {| messages := Some [AIMessage (lit "analysis");
                       HumanMessage (lit "Evaluate Company Y");
                       AIMessage (lit "review")];
     original_query := PyNone;
     analyses := None;
     agent_feedbacks := Val []; revision_count := Val 1;
     consensus_reached := Val false; final_report := Val (lit "short");
     workflow_stage := Absent; completion_status := None |}.

(** What no node after the fan-out writes: the query, the analyses and the
    completion flags of [st] are those of [st0]. *)
Definition same_inputs (st0 st : MultiAgentState) : Prop :=
  original_query st = original_query st0 ∧
  analyses st = analyses st0 ∧
  completion_status st = completion_status st0.

(** Where a run can stand once the three analysis nodes have run: over with
    consensus set, or before the barrier, the review, the synthesis or the
    gate, with messages and a readable revision count, and before the gate
    with a report. It has not failed. *)
Definition after_fan_out (st0 : MultiAgentState) (r : Run) : Prop :=
  match r with
  | Failed _ _ => False
  | Finished st _ => same_inputs st0 st ∧ consensus_reached st = Val true
  | Running st due _ =>
      same_inputs st0 st ∧
      (∃ msgs, messages st = Some msgs) ∧
      (∃ n, get (revision_count st) (Some 0) = Some n) ∧
      (due = [n_wait_for_analyses] ∨ due = [n_peer_review] ∨
       due = [n_senior_synthesis] ∨
       (due = [n_consensus_check] ∧ ∃ report, final_report st = Val report))
  end.

(** An input whose revision count is [None]. *)
Definition input_with_none_count : MultiAgentState :=
  {| messages := Some [HumanMessage (lit "Evaluate Company X")];
     original_query := Absent; analyses := None; agent_feedbacks := Absent;
     revision_count := PyNone;
     consensus_reached := Absent; final_report := Absent;
     workflow_stage := Absent; completion_status := None |}.

(** Whether the gate sends the run back to the review. *)
Definition revises (n : Z) (report : str) : bool :=
  (n <? 2) && (Z.of_nat (length report) <=? 500).

(** The analyses succeed with a short text and the senior agent raises. *)
Definition senior_raises : oracle :=
  fun _ a _ =>
    match a with
    | senior_agent => Raised (lit "timeout")
    | _ => Returned (lit "ok")
    end.

(** What running the nodes that are due gives, at the place where a run
    stands: their updates, or the exception one of them raised. *)
Definition due_nodes_result (g : StateGraph) (r : Run) : result (list (str * Update)) :=
  match r with
  | Running st due w => fst (run_nodes g st due w)
  | _ => Ok []
  end.

(** * Properties *)

(** Case split on what the agent invocation in the goal gave. *)
Ltac destruct_outcome :=
  match goal with
  | |- context [?invoke ?n ?a ?t] =>
      match type of (invoke n a t) with
      | Outcome => destruct (invoke n a t)
      end
  end.

(** ** Merge functions *)

Lemma add_analyses_bare_string existing s :
  add_analyses existing (OneStr s) = add_analyses existing (StrList [s]).
Proof. reflexivity. Qed.

Lemma add_analyses_twice existing a b :
  add_analyses (Some (add_analyses existing (StrList [a]))) (StrList [b])
  = default [] existing ++ [a; b].
Proof.
  unfold add_analyses. destruct existing as [l|]; simpl.
  - now rewrite <- app_assoc.
  - reflexivity.
Qed.

(** C9. Two one-item updates [a] and [b] merged into the same list in either
    order give lists that both contain [a] and [b]; the two results are
    permutations of each other, and both keep what was there before. An
    incoming bare string counts as the one-element list holding it. *)
Theorem add_analyses_order_independent (existing : option (list str)) (a b : str) :
  let ab := add_analyses (Some (add_analyses existing (StrList [a]))) (StrList [b]) in
  let ba := add_analyses (Some (add_analyses existing (StrList [b]))) (StrList [a]) in
  a ∈ ab ∧ b ∈ ab ∧ a ∈ ba ∧ b ∈ ba ∧ ab ≡ₚ ba ∧
  ab = default [] existing ++ [a; b] ∧
  add_analyses existing (OneStr a) = add_analyses existing (StrList [a]) ∧
  add_analyses (Some (add_analyses existing (OneStr a))) (OneStr b) = ab.
Proof.
  cbv zeta. rewrite !add_analyses_bare_string, !add_analyses_twice.
  repeat split.
  - apply elem_of_app; right; apply list_elem_of_In; simpl; auto.
  - apply elem_of_app; right; apply list_elem_of_In; simpl; auto.
  - apply elem_of_app; right; apply list_elem_of_In; simpl; auto.
  - apply elem_of_app; right; apply list_elem_of_In; simpl; auto.
  - apply Permutation_app_head, perm_swap.
Qed.

(** ** Join barrier *)

Lemma all_completed_flags st :
  all (completed_flags st) = true ↔
  flags st !! k_fundamental = Some true ∧
  flags st !! k_technical = Some true ∧
  flags st !! k_risk = Some true.
Proof.
  unfold all, completed_flags, flag. fold (flags st). simpl.
  destruct (flags st !! k_fundamental) as [[]|];
    destruct (flags st !! k_technical) as [[]|];
    destruct (flags st !! k_risk) as [[]|]; simpl;
    split; try discriminate; try tauto;
    intros (? & ? & ?); discriminate.
Qed.

Lemma wait_targets (agent_invoke : oracle) (now : clock) st :
  targets (build_multi_agent_graph agent_invoke now) n_wait_for_analyses st
  = [check_analyses_completion st].
Proof.
  unfold targets. cbn.
  unfold check_analyses_completion.
  destruct (all (completed_flags st)); reflexivity.
Qed.

(** C5. The join routing function answers [peer_review] exactly when the
    three keys fundamental, technical and risk are all present and true in
    the completion flags, whatever else the mapping holds; in every other
    case it answers [wait_for_analyses], and the graph sends that answer
    back to the barrier node itself. *)
Theorem check_analyses_completion_iff (agent_invoke : oracle) (now : clock)
    (st : MultiAgentState) :
  (check_analyses_completion st = n_peer_review ↔
     flags st !! k_fundamental = Some true ∧
     flags st !! k_technical = Some true ∧
     flags st !! k_risk = Some true) ∧
  (check_analyses_completion st = n_wait_for_analyses ↔
     ¬ (flags st !! k_fundamental = Some true ∧
        flags st !! k_technical = Some true ∧
        flags st !! k_risk = Some true)) ∧
  targets (build_multi_agent_graph agent_invoke now) n_wait_for_analyses st
  = [check_analyses_completion st].
Proof.
  pose proof (all_completed_flags st) as H.
  split; [|split; [|apply wait_targets]];
    unfold check_analyses_completion;
    destruct (all (completed_flags st)).
  - split; [intros _; now apply H | reflexivity].
  - split; [discriminate | intros E; apply H in E; discriminate].
  - split; [discriminate | intros N; exfalso; apply N; now apply H].
  - split; [intros _ E; apply H in E; discriminate | reflexivity].
Qed.

(** ** Consensus gate *)

Lemma consensus_gate_reads_two_keys st st' :
  revision_count st' = revision_count st →
  final_report st' = final_report st →
  consensus_check_node st' = consensus_check_node st.
Proof. unfold consensus_check_node. now intros -> ->. Qed.

(** C3. The consensus gate is a function of the revision count [n] and the
    report alone, with three outcomes, each given by the dictionary the
    node returns: for [n >= 2] it writes [consensus_reached = True] and the
    count [n]; otherwise, for a report longer than 500 characters, it writes
    [consensus_reached = True] and the count [n]; otherwise it writes
    [consensus_reached = False] and the count [n + 1]. Besides these two
    keys it writes the stage and nothing else. A missing count reads as 0
    and a missing report as the empty string. *)
Theorem consensus_gate_outcomes (st : MultiAgentState) (n : Z) :
  get (revision_count st) (Some 0) = Some n →
  (2 <= n →
     consensus_check_node st
     = Ok {| u_messages := None; u_original_query := None; u_analyses := None;
             u_agent_feedbacks := None;
             u_revision_count := Some n;
             u_consensus_reached := Some true;
             u_final_report := None;
             u_workflow_stage := Some (lit "consensus_checked");
             u_completion_status := None |}) ∧
  (∀ r : str, get (final_report st) (Some []) = Some r → n < 2 →
     (500 < Z.of_nat (length r) →
        consensus_check_node st
        = Ok {| u_messages := None; u_original_query := None; u_analyses := None;
                u_agent_feedbacks := None;
                u_revision_count := Some n;
                u_consensus_reached := Some true;
                u_final_report := None;
                u_workflow_stage := Some (lit "consensus_checked");
                u_completion_status := None |}) ∧
     (Z.of_nat (length r) <= 500 →
        consensus_check_node st
        = Ok {| u_messages := None; u_original_query := None; u_analyses := None;
                u_agent_feedbacks := None;
                u_revision_count := Some (n + 1);
                u_consensus_reached := Some false;
                u_final_report := None;
                u_workflow_stage := Some (lit "consensus_checked");
                u_completion_status := None |})) ∧
  (∀ st', revision_count st' = revision_count st →
          final_report st' = final_report st →
          consensus_check_node st' = consensus_check_node st).
Proof.
  intros Hn. split; [|split].
  - intros Hge. unfold consensus_check_node. rewrite Hn.
    destruct (Z.ltb_spec n 2); [lia | reflexivity].
  - intros r Hr Hlt. unfold consensus_check_node. rewrite Hn, Hr.
    destruct (Z.ltb_spec n 2); [|lia].
    split; intros Hlen.
    + destruct (Z.gtb_spec (Z.of_nat (length r)) 500); [reflexivity | lia].
    + destruct (Z.gtb_spec (Z.of_nat (length r)) 500); [lia | reflexivity].
  - apply consensus_gate_reads_two_keys.
Qed.

Lemma consensus_gate_examples :
  consensus_check_node (gate_input (Val 0) (Val (repeat_char 97 600)))
    = Ok {| u_messages := None; u_original_query := None; u_analyses := None;
            u_agent_feedbacks := None;
            u_revision_count := Some 0;
            u_consensus_reached := Some true;
            u_final_report := None;
            u_workflow_stage := Some (lit "consensus_checked");
            u_completion_status := None |} ∧
  consensus_check_node (gate_input (Val 0) (Val (repeat_char 97 100)))
    = Ok {| u_messages := None; u_original_query := None; u_analyses := None;
            u_agent_feedbacks := None;
            u_revision_count := Some 1;
            u_consensus_reached := Some false;
            u_final_report := None;
            u_workflow_stage := Some (lit "consensus_checked");
            u_completion_status := None |} ∧
  consensus_check_node (gate_input (Val 2) (Val (repeat_char 97 100)))
    = Ok {| u_messages := None; u_original_query := None; u_analyses := None;
            u_agent_feedbacks := None;
            u_revision_count := Some 2;
            u_consensus_reached := Some true;
            u_final_report := None;
            u_workflow_stage := Some (lit "consensus_checked");
            u_completion_status := None |} ∧
  consensus_check_node (gate_input (Val 2) PyNone)
    = Ok {| u_messages := None; u_original_query := None; u_analyses := None;
            u_agent_feedbacks := None;
            u_revision_count := Some 2;
            u_consensus_reached := Some true;
            u_final_report := None;
            u_workflow_stage := Some (lit "consensus_checked");
            u_completion_status := None |} ∧
  consensus_check_node (gate_input Absent Absent)
    = Ok {| u_messages := None; u_original_query := None; u_analyses := None;
            u_agent_feedbacks := None;
            u_revision_count := Some 1;
            u_consensus_reached := Some false;
            u_final_report := None;
            u_workflow_stage := Some (lit "consensus_checked");
            u_completion_status := None |}.
Proof.
  split; [|split; [|split; [|split]]].
  - refine (proj1 (proj1 (proj2 (consensus_gate_outcomes
      (gate_input (Val 0) (Val (repeat_char 97 600))) 0 eq_refl))
      (repeat_char 97 600) eq_refl _) _); [lia | vm_compute; reflexivity].
  - refine (proj2 (proj1 (proj2 (consensus_gate_outcomes
      (gate_input (Val 0) (Val (repeat_char 97 100))) 0 eq_refl))
      (repeat_char 97 100) eq_refl _) _); [lia | vm_compute; discriminate].
  - refine (proj1 (consensus_gate_outcomes
      (gate_input (Val 2) (Val (repeat_char 97 100))) 2 eq_refl) _); lia.
  - refine (proj1 (consensus_gate_outcomes
      (gate_input (Val 2) PyNone) 2 eq_refl) _); lia.
  - refine (proj2 (proj1 (proj2 (consensus_gate_outcomes
      (gate_input Absent Absent) 0 eq_refl)) [] eq_refl _) _);
      [lia | vm_compute; discriminate].
Defined.

(** ** Peer review *)

(** C8. With an empty analysis log (the key missing, or an empty list) the
    review makes no agent invocation and reads no clock: the world is
    returned as it was. Its update holds the fixed message and the stage
    and nothing else, so no feedback record is written. *)
Theorem peer_review_empty_log (agent_invoke : oracle) (now : clock)
    (st : MultiAgentState) (w : World) :
  default [] (analyses st) = [] →
  peer_review_node agent_invoke now st w =
    ({| u_messages := Some [AIMessage (lit "【同行评议】没有分析结果可供评议")];
        u_original_query := None; u_analyses := None;
        u_agent_feedbacks := None; u_revision_count := None;
        u_consensus_reached := None; u_final_report := None;
        u_workflow_stage := Some (lit "peer_review_completed");
        u_completion_status := None |}, w) ∧
  invocations (snd (peer_review_node agent_invoke now st w)) = invocations w ∧
  agent_feedbacks (apply_update st (fst (peer_review_node agent_invoke now st w)))
    = agent_feedbacks st.
Proof.
  intros He.
  assert (peer_review_node agent_invoke now st w =
    ({| u_messages := Some [AIMessage (lit "【同行评议】没有分析结果可供评议")];
        u_original_query := None; u_analyses := None;
        u_agent_feedbacks := None; u_revision_count := None;
        u_consensus_reached := None; u_final_report := None;
        u_workflow_stage := Some (lit "peer_review_completed");
        u_completion_status := None |}, w)) as E.
  { unfold peer_review_node. rewrite He. reflexivity. }
  rewrite E. split; [reflexivity | split; reflexivity].
Qed.

Lemma peer_review_empty_log_example :
  invocations
    (snd (peer_review_node always_raises fixed_clock empty_state world0)) = [] ∧
  u_agent_feedbacks
    (fst (peer_review_node long_answers fixed_clock empty_state world0)) = None.
Proof.
  split.
  - exact (proj1 (proj2 (peer_review_empty_log always_raises fixed_clock
                           empty_state world0 eq_refl))).
  - rewrite (proj1 (peer_review_empty_log long_answers fixed_clock
                      empty_state world0 eq_refl)).
    reflexivity.
Defined.

Lemma review_run (agent_invoke : oracle) a task header failed w :
  review agent_invoke a task header failed w =
    (review_entry (agent_invoke (length (invocations w)) a task) header failed,
     {| invocations := invocations w ++ [(a, task)];
        clock_reads := clock_reads w |}).
Proof.
  unfold review, bind, invoke, ret.
  destruct (agent_invoke (length (invocations w)) a task); reflexivity.
Qed.

(** What a review of a non-empty text does, whatever the three invocations
    give: three invocations, one clock reading, one record. *)
Lemma peer_review_run (agent_invoke : oracle) (now : clock) st w :
  truthy (Some (combined_analysis st)) = true →
  let w3 := {| invocations := invocations w ++ review_invocations (combined_analysis st);
               clock_reads := clock_reads w |} in
  let text :=
    fst (format_review_output now
           (review_entries agent_invoke (combined_analysis st) w) w3) in
  peer_review_node agent_invoke now st w =
    (peer_review_update text,
     {| invocations := invocations w3; clock_reads := S (clock_reads w) |}).
Proof.
  intros Hne. cbv zeta. unfold peer_review_node.
  fold (combined_analysis st). rewrite Hne. cbv iota.
  change (negb true) with false. cbv iota.
  unfold bind at 1. rewrite review_run.
  unfold bind at 1. rewrite review_run.
  unfold bind at 1. rewrite review_run.
  cbn [invocations clock_reads].
  rewrite !length_app. cbn [length].
  rewrite <- !app_assoc, !Nat.add_1_r. cbn [app].
  unfold bind, format_review_output, bind, strftime_now, ret.
  reflexivity.
Qed.


(** C6, as the code has it. When the text joined from the analyses is not
    empty, the review invokes the three reviewing agents once each, in the
    order fundamental, technical, risk, and returns one feedback record, not
    three: its content is the text that [format_review_output] builds from
    the three entries, each the reviewing agent's answer under its header
    or the fixed placeholder of that agent. The list holding that record
    replaces whatever [agent_feedbacks] held. *)
Theorem peer_review_one_record (agent_invoke : oracle) (now : clock)
    (st : MultiAgentState) (w : World) :
  truthy (Some (combined_analysis st)) = true →
  ∃ text w',
    peer_review_node agent_invoke now st w = (peer_review_update text, w') ∧
    u_agent_feedbacks (peer_review_update text) = Some [peer_review_record text] ∧
    text = fst (format_review_output now
                  (review_entries agent_invoke (combined_analysis st) w)
                  {| invocations := invocations w' ; clock_reads := clock_reads w |}) ∧
    length (review_entries agent_invoke (combined_analysis st) w) = 3%nat ∧
    invocations w' = invocations w ++ review_invocations (combined_analysis st) ∧
    agent_feedbacks (apply_update st (peer_review_update text))
      = Val [peer_review_record text].
Proof.
  intros Hne. pose proof (peer_review_run agent_invoke now st w Hne) as H.
  cbv zeta in H. eexists _, _. split; [exact H|].
  repeat split.
Qed.

Lemma peer_review_one_record_example :
  ∃ text w',
    peer_review_node fundamental_raises fixed_clock review_input world0
      = (peer_review_update text, w') ∧
    u_agent_feedbacks (peer_review_update text) = Some [peer_review_record text] ∧
    text = fst (format_review_output fixed_clock
                  (review_entries fundamental_raises (combined_analysis review_input) world0)
                  {| invocations := invocations w'; clock_reads := 0 |}) ∧
    length (review_entries fundamental_raises (combined_analysis review_input) world0)
      = 3%nat ∧
    invocations w' = review_invocations (combined_analysis review_input) ∧
    agent_feedbacks (apply_update review_input (peer_review_update text))
      = Val [peer_review_record text].
Proof.
  exact (peer_review_one_record fundamental_raises fixed_clock review_input world0
           eq_refl).
Defined.

(** C6, as stated, fails: with three analyses in the log and three reviews
    that succeed, the update carries one record, and after the update the
    state holds that record alone, the older one being gone. *)
Lemma peer_review_not_three_records :
  length (default [] (analyses review_input)) = 3%nat ∧
  length (written_feedbacks
            (returns (peer_review_node long_answers fixed_clock) review_input world0))
    = 1%nat ∧
  length (default []
            (get (agent_feedbacks
                    (apply_update review_input
                       (fst (peer_review_node long_answers fixed_clock
                               review_input world0)))) None))
    = 1%nat.
Proof. vm_compute. repeat split. Qed.

(** ** Feedback records *)






(** ** Analysis nodes *)

Lemma executor_run r (agent_invoke : oracle) (now : clock) st w :
  ∃ (message : str) (done : bool) (body : str),
    executor_node r agent_invoke now st w =
      (analysis_update message (role_tag r ++ body) (role_key r) done,
       {| invocations := invocations w ++ [(role_agent r, role_task r st)];
          clock_reads := S (clock_reads w) |}) ∧
    match agent_invoke (length (invocations w)) (role_agent r) (role_task r st) with
    | Returned c => done = true ∧ body = c
    | Raised e => done = false ∧ body = lit "分析失败 - " ++ e
    end.
Proof.
  unfold executor_node, role_task.
  destruct r;
    [ unfold fundamental_analysis_node
    | unfold technical_analysis_node
    | unfold risk_analysis_node ];
    unfold bind at 1; unfold invoke; cbn [role_agent role_tag role_key];
    destruct_outcome;
    unfold bind, format_analysis_output, bind, strftime_now, ret;
    cbn [invocations clock_reads];
    eexists _, _, _; (split; [reflexivity | split; reflexivity]).
Qed.

Lemma node_query_cases st :
  let query := get (original_query st) (Some []) in
  (truthy query = true → node_query st = query) ∧
  (truthy query = false → truthy (messages st) = true →
     node_query st = Some (first_message_content st)) ∧
  (truthy query = false → truthy (messages st) = false →
     node_query st = query ∧ (fmt query = [] ∨ fmt query = lit "None")).
Proof.
  cbv zeta. unfold node_query.
  destruct (truthy (get (original_query st) (Some []))) eqn:Hq;
    destruct (truthy (messages st)) eqn:Hm; cbn [negb andb];
    (split; [|split]); intros; try discriminate; try reflexivity.
  split; [reflexivity|].
  destruct (get (original_query st) (Some [])) as [[|c q]|];
    [left; reflexivity | discriminate | right; reflexivity].
Qed.

(** C7, as the code has it. No analysis node raises for a missing query, and
    there is no error of that kind in the code: on every state the node
    returns an update, after invoking its agent once with the task built
    from the query. The query is [original_query] when that is a non-empty
    string; otherwise the content of the first message when there is one;
    and when both are empty the task is built from the empty string (or
    from the text None, when the key holds [None]). *)
Theorem executor_accepts_missing_query (r : role) (agent_invoke : oracle)
    (now : clock) (st : MultiAgentState) (w : World) :
  (∃ u w',
     returns (executor_node r agent_invoke now) st w = (Ok u, w') ∧
     invocations w' = invocations w ++ [(role_agent r, role_task r st)]) ∧
  let query := get (original_query st) (Some []) in
  (truthy query = true → node_query st = query) ∧
  (truthy query = false → truthy (messages st) = true →
     node_query st = Some (first_message_content st)) ∧
  (truthy query = false → truthy (messages st) = false →
     node_query st = query ∧ (fmt query = [] ∨ fmt query = lit "None")).
Proof.
  split; [|apply node_query_cases].
  destruct (executor_run r agent_invoke now st w) as (m & d & b & E & _).
  unfold returns, bind, ret. rewrite E. eexists _, _. split; reflexivity.
Qed.

(** C7, as stated, fails: on a state with neither query nor messages the
    fundamental analysis node raises nothing. It invokes its agent with the
    task that ends where the query would stand, and reports completion. *)
Lemma executor_runs_without_query :
  let out :=
    returns (fundamental_analysis_node long_answers fixed_clock) empty_state world0 in
  truthy (get (original_query empty_state) (Some [])) = false ∧
  truthy (messages empty_state) = false ∧
  is_ok (fst out) = true ∧
  invocations (snd out) =
    [(fundamental_agent, lit "请对以下投资标的进行深入的基本面分析: ")] ∧
  (u_completion_status <$> ok_value (fst out)) = Some (Some {[ k_fundamental := true ]}).
Proof. cbv zeta. repeat split. Qed.

Lemma flags_after_analysis_update st message analysis key done :
  flags (apply_update st (analysis_update message analysis key done)) !! key
  = Some done.
Proof.
  unfold flags, apply_update, analysis_update, add_completion_status.
  cbn [completion_status u_completion_status default].
  apply lookup_union_Some_l, lookup_singleton_eq.
Qed.

Lemma unfinished_role_waits st r :
  flags st !! role_key r = Some false →
  check_analyses_completion st = n_wait_for_analyses.
Proof.
  intros Hf. unfold check_analyses_completion.
  destruct (all (completed_flags st)) eqn:Ha; [|reflexivity].
  apply all_completed_flags in Ha. destruct Ha as (Hf1 & Hf2 & Hf3).
  destruct r; cbn [role_key] in Hf; congruence.
Qed.

(** C1, on the code. When the invocation of a role's analysis node raises
    with message [e], the node appends the entry made of the role's tag,
    the failure marker and [e] to the analyses, and it writes the role's
    completion flag as false, not true. On the state so updated the join
    routing answers [wait_for_analyses]. *)
Theorem executor_failure_leaves_flag_false (r : role) (agent_invoke : oracle)
    (now : clock) (st : MultiAgentState) (w : World) (e : str) :
  agent_invoke (length (invocations w)) (role_agent r) (role_task r st) = Raised e →
  ∃ message w',
    let u := analysis_update message (role_tag r ++ lit "分析失败 - " ++ e)
               (role_key r) false in
    executor_node r agent_invoke now st w = (u, w') ∧
    analyses (apply_update st u)
      = Some (default [] (analyses st) ++ [role_tag r ++ lit "分析失败 - " ++ e]) ∧
    flags (apply_update st u) !! role_key r = Some false ∧
    check_analyses_completion (apply_update st u) = n_wait_for_analyses.
Proof.
  intros Hr.
  destruct (executor_run r agent_invoke now st w) as (m & d & b & E & Ho).
  rewrite Hr in Ho. destruct Ho as [-> ->].
  eexists m, _. cbv zeta. split; [exact E|]. split; [|split].
  - unfold apply_update, analysis_update, add_analyses.
    cbn [analyses u_analyses]. now destruct (analyses st).
  - apply flags_after_analysis_update.
  - apply (unfinished_role_waits _ r), flags_after_analysis_update.
Qed.

Lemma executor_failure_example :
  ∃ message w',
    let u := analysis_update message (lit "基本面分析: 分析失败 - timeout")
               k_fundamental false in
    fundamental_analysis_node fundamental_raises fixed_clock
      (input_of_query (lit "Evaluate Company X")) world0 = (u, w') ∧
    analyses (apply_update (input_of_query (lit "Evaluate Company X")) u)
      = Some [lit "基本面分析: 分析失败 - timeout"] ∧
    flags (apply_update (input_of_query (lit "Evaluate Company X")) u) !! k_fundamental
      = Some false ∧
    check_analyses_completion
      (apply_update (input_of_query (lit "Evaluate Company X")) u)
      = n_wait_for_analyses.
Proof.
  exact (executor_failure_leaves_flag_false fundamental fundamental_raises
           fixed_clock (input_of_query (lit "Evaluate Company X")) world0
           (lit "timeout") eq_refl).
Defined.

(** ** Synthesis and the consensus routing *)

Lemma synthesis_run (agent_invoke : oracle) (now : clock) st w msgs :
  messages st = Some msgs →
  ∃ (text stage : str),
    senior_synthesis_node agent_invoke now st w =
      (Ok {| u_messages := Some [AIMessage text];
             u_original_query := None; u_analyses := None;
             u_agent_feedbacks := None; u_revision_count := None;
             u_consensus_reached := Some true;
             u_final_report :=
               Some (stored_report
                       (agent_invoke (length (invocations w)) senior_agent
                          (synthesis_task_of msgs)));
             u_workflow_stage := Some stage;
             u_completion_status := None |},
       {| invocations := invocations w ++ [(senior_agent, synthesis_task_of msgs)];
          clock_reads := S (clock_reads w) |}).
Proof.
  intros Hm. unfold senior_synthesis_node. rewrite Hm.
  unfold bind at 1. unfold invoke. fold (synthesis_task_of msgs).
  destruct (agent_invoke (length (invocations w)) senior_agent (synthesis_task_of msgs));
    unfold bind, format_final_report, bind, strftime_now, ret;
    cbn [invocations clock_reads stored_report]; eexists _, _; reflexivity.
Qed.

Lemma routing_after_gate st c n :
  check_consensus_routing (apply_update st (consensus_update c n))
  = if c then END else n_peer_review.
Proof. destruct c; reflexivity. Qed.

(** C4, as the code has it. The synthesis returns an update on every state
    that has messages, with [consensus_reached] true in both branches and
    with [final_report] the agent's answer on success and the error text on
    failure; the consensus routing function, applied to the state right
    after that update, answers [END]. In the graph the routing function is
    not applied there: the consensus gate runs first and computes the flag
    anew. After a successful synthesis with a count [n] and an answer [c],
    the routing that follows the gate answers [peer_review] exactly when
    [n < 2] and [c] has at most 500 characters. *)
Theorem synthesis_sets_consensus (agent_invoke : oracle) (now : clock)
    (st : MultiAgentState) (w : World) (msgs : list Message) :
  messages st = Some msgs →
  let outcome :=
    agent_invoke (length (invocations w)) senior_agent (synthesis_task_of msgs) in
  ∃ u w',
    senior_synthesis_node agent_invoke now st w = (Ok u, w') ∧
    u_consensus_reached u = Some true ∧
    u_final_report u = Some (stored_report outcome) ∧
    check_consensus_routing (apply_update st u) = END ∧
    (∀ (c : str) (n : Z),
       outcome = Returned c →
       get (revision_count st) (Some 0) = Some n →
       ∃ u_gate,
         consensus_check_node (apply_update st u) = Ok u_gate ∧
         check_consensus_routing (apply_update (apply_update st u) u_gate)
         = if (n <? 2) && (Z.of_nat (length c) <=? 500)
           then n_peer_review else END).
Proof.
  intros Hm. cbv zeta.
  destruct (synthesis_run agent_invoke now st w msgs Hm) as (text & stage & E).
  eexists _, _. split; [exact E|].
  cbn [u_consensus_reached u_final_report].
  split; [reflexivity|]. split; [reflexivity|]. split; [reflexivity|].
  intros c n Hc Hn. rewrite Hc. cbn [stored_report].
  unfold consensus_check_node.
  assert (get (revision_count (apply_update st
            {| u_messages := Some [AIMessage text];
               u_original_query := None; u_analyses := None;
               u_agent_feedbacks := None; u_revision_count := None;
               u_consensus_reached := Some true;
               u_final_report := Some c;
               u_workflow_stage := Some stage;
               u_completion_status := None |})) (Some 0) = Some n) as -> by exact Hn.
  cbn [apply_update final_report u_final_report overwrite get].
  destruct (Z.ltb_spec n 2) as [Hlt|Hge]; cbn [andb].
  - destruct (Z.gtb_spec (Z.of_nat (length c)) 500) as [Hlen|Hlen];
      eexists; (split; [reflexivity|]); rewrite routing_after_gate.
    + destruct (Z.leb_spec (Z.of_nat (length c)) 500); [lia | reflexivity].
    + destruct (Z.leb_spec (Z.of_nat (length c)) 500); [reflexivity | lia].
  - eexists; (split; [reflexivity|]); now rewrite routing_after_gate.
Qed.

Lemma synthesis_sets_consensus_example :
  let outcome :=
    long_answers 0%nat senior_agent
      (synthesis_task_of [HumanMessage (lit "Evaluate Company X")]) in
  ∃ u w',
    senior_synthesis_node long_answers fixed_clock review_input world0 = (Ok u, w') ∧
    u_consensus_reached u = Some true ∧
    u_final_report u = Some (stored_report outcome) ∧
    check_consensus_routing (apply_update review_input u) = END ∧
    (∀ (c : str) (n : Z),
       outcome = Returned c →
       get (revision_count review_input) (Some 0) = Some n →
       ∃ u_gate,
         consensus_check_node (apply_update review_input u) = Ok u_gate ∧
         check_consensus_routing (apply_update (apply_update review_input u) u_gate)
         = if (n <? 2) && (Z.of_nat (length c) <=? 500)
           then n_peer_review else END).
Proof.
  exact (synthesis_sets_consensus long_answers fixed_clock review_input world0
           [HumanMessage (lit "Evaluate Company X")] eq_refl).
Defined.

(** C4, as stated, fails on the path through a successful synthesis. With
    agents that answer in two characters, the run started on a query stands
    after five supersteps before the consensus gate, with the flag the
    synthesis has set to true and its answer as the report; one superstep
    later the flag is false, the count is 1 and the node due is
    [peer_review]. *)
Lemma revise_after_successful_synthesis :
  let g := build_multi_agent_graph short_answers fixed_clock in
  let input := input_of_query (lit "Evaluate Company X") in
  run_due (graph_invoke g input 4) = [n_senior_synthesis] ∧
  run_due (graph_invoke g input 5) = [n_consensus_check] ∧
  (consensus_reached <$> run_state (graph_invoke g input 5)) = Some (Val true) ∧
  (final_report <$> run_state (graph_invoke g input 5)) = Some (Val (lit "ok")) ∧
  run_due (graph_invoke g input 6) = [n_peer_review] ∧
  (consensus_reached <$> run_state (graph_invoke g input 6)) = Some (Val false) ∧
  (revision_count <$> run_state (graph_invoke g input 6)) = Some (Val 1).
Proof. vm_compute. repeat split. Qed.

(** ** Runs of the graph *)

Lemma start_targets (agent_invoke : oracle) (now : clock) st :
  targets (build_multi_agent_graph agent_invoke now) START st = [n_coordinator].
Proof. reflexivity. Qed.

Lemma coordinator_targets (agent_invoke : oracle) (now : clock) st :
  targets (build_multi_agent_graph agent_invoke now) n_coordinator st
  = [n_fundamental_analysis; n_technical_analysis; n_risk_analysis].
Proof. reflexivity. Qed.

Lemma executor_targets (agent_invoke : oracle) (now : clock) r st :
  targets (build_multi_agent_graph agent_invoke now) (node_name r) st
  = [n_wait_for_analyses].
Proof. destruct r; reflexivity. Qed.

Lemma executor_assoc (agent_invoke : oracle) (now : clock) r :
  assoc (node_name r) (nodes (build_multi_agent_graph agent_invoke now))
  = Some (returns (executor_node r agent_invoke now)).
Proof. destruct r; reflexivity. Qed.

Lemma coordinator_superstep (agent_invoke : oracle) (now : clock) st w :
  superstep (build_multi_agent_graph agent_invoke now) st [n_coordinator] w
  = Running (apply_update st (fst (coordinator_node now st w)))
      [n_fundamental_analysis; n_technical_analysis; n_risk_analysis]
      (snd (coordinator_node now st w)).
Proof.
  unfold superstep. cbn [run_nodes].
  change (assoc n_coordinator (nodes (build_multi_agent_graph agent_invoke now)))
    with (Some (returns (coordinator_node now))).
  unfold returns, bind, ret.
  destruct (coordinator_node now st w) as [u w1].
  cbv beta iota zeta. unfold next_due. cbn [flat_map map snd fst fold_left].
  rewrite coordinator_targets. reflexivity.
Qed.

(** The superstep of the three analysis nodes: each role's flag is true when
    its invocation returned and false when it raised, and the barrier is
    due next. *)
Lemma executors_superstep (agent_invoke : oracle) (now : clock) st w :
  ∃ st' w',
    superstep (build_multi_agent_graph agent_invoke now) st
      [n_fundamental_analysis; n_technical_analysis; n_risk_analysis] w
    = Running st' [n_wait_for_analyses] w' ∧
    (∃ msgs, messages st' = Some msgs) ∧
    revision_count st' = revision_count st ∧
    (∃ a1 a2 a3, analyses st' = Some (default [] (analyses st) ++ [a1; a2; a3]) ∧
                 a1 ≠ []) ∧
    flags st' !! k_fundamental
      = Some (negb (raises (agent_invoke (length (invocations w))
                              fundamental_agent (role_task fundamental st)))) ∧
    flags st' !! k_technical
      = Some (negb (raises (agent_invoke (S (length (invocations w)))
                              technical_agent (role_task technical st)))) ∧
    flags st' !! k_risk
      = Some (negb (raises (agent_invoke (S (S (length (invocations w))))
                              risk_agent (role_task risk st)))).
Proof.
  change [n_fundamental_analysis; n_technical_analysis; n_risk_analysis]
    with [node_name fundamental; node_name technical; node_name risk].
  unfold superstep. cbn [run_nodes].
  rewrite (executor_assoc agent_invoke now fundamental),
          (executor_assoc agent_invoke now technical),
          (executor_assoc agent_invoke now risk).
  unfold returns, bind, ret.
  destruct (executor_run fundamental agent_invoke now st w)
    as (m1 & d1 & b1 & E1 & H1). rewrite E1. cbv beta iota zeta.
  match goal with
  | |- context [executor_node technical agent_invoke now st ?w1] =>
      destruct (executor_run technical agent_invoke now st w1)
        as (m2 & d2 & b2 & E2 & H2); rewrite E2; cbv beta iota zeta
  end.
  match goal with
  | |- context [executor_node risk agent_invoke now st ?w2] =>
      destruct (executor_run risk agent_invoke now st w2)
        as (m3 & d3 & b3 & E3 & H3); rewrite E3; cbv beta iota zeta
  end.
  cbn [invocations] in H2, H3.
  repeat (rewrite length_app in H2; cbn [length] in H2; rewrite Nat.add_1_r in H2).
  repeat (rewrite length_app in H3; cbn [length] in H3; rewrite Nat.add_1_r in H3).
  unfold next_due. cbn [flat_map map snd fst fold_left].
  rewrite (executor_targets agent_invoke now fundamental),
          (executor_targets agent_invoke now technical),
          (executor_targets agent_invoke now risk).
  eexists _, _. split; [reflexivity|].
  split; [eexists; reflexivity|].
  split; [reflexivity|].
  split.
  { eexists _, _, _. split.
    - unfold apply_update, analysis_update, add_analyses. cbn [analyses u_analyses].
      destruct (analyses st); cbn [default]; rewrite <- ?app_assoc; reflexivity.
    - cbn [role_tag]. discriminate. }
  assert (d1 = negb (raises (agent_invoke (length (invocations w))
                               fundamental_agent (role_task fundamental st)))) as ->.
  { cbn [role_agent] in H1.
    destruct (agent_invoke (length (invocations w)) fundamental_agent
                (role_task fundamental st));
      cbv beta iota in H1; now destruct H1. }
  assert (d2 = negb (raises (agent_invoke (S (length (invocations w)))
                               technical_agent (role_task technical st)))) as ->.
  { cbn [role_agent] in H2.
    destruct (agent_invoke (S (length (invocations w))) technical_agent
                (role_task technical st));
      cbv beta iota in H2; now destruct H2. }
  assert (d3 = negb (raises (agent_invoke (S (S (length (invocations w))))
                               risk_agent (role_task risk st)))) as ->.
  { cbn [role_agent] in H3.
    destruct (agent_invoke (S (S (length (invocations w)))) risk_agent
                (role_task risk st));
      cbv beta iota in H3; now destruct H3. }
  unfold flags, apply_update, analysis_update, add_completion_status.
  cbn [completion_status u_completion_status default role_key]. unfold id.
  split; [|split].
  - rewrite lookup_union_r by (now apply lookup_singleton_ne).
    rewrite lookup_union_r by (now apply lookup_singleton_ne).
    apply lookup_union_Some_l, lookup_singleton_eq.
  - rewrite lookup_union_r by (now apply lookup_singleton_ne).
    apply lookup_union_Some_l, lookup_singleton_eq.
  - apply lookup_union_Some_l, lookup_singleton_eq.
Qed.

Lemma wait_assoc (agent_invoke : oracle) (now : clock) :
  assoc n_wait_for_analyses (nodes (build_multi_agent_graph agent_invoke now))
  = Some (fun st => ret (Ok (wait_for_analyses_node st))).
Proof. reflexivity. Qed.

Lemma wait_keeps_flags st :
  flags (apply_update st (wait_for_analyses_node st)) = flags st.
Proof.
  unfold wait_for_analyses_node. destruct (all (completed_flags st)); reflexivity.
Qed.

Lemma routing_reads_flags st st' :
  flags st' = flags st →
  check_analyses_completion st' = check_analyses_completion st.
Proof.
  unfold check_analyses_completion, completed_flags.
  fold (flags st) (flags st'). now intros ->.
Qed.

Lemma wait_superstep (agent_invoke : oracle) (now : clock) st w :
  superstep (build_multi_agent_graph agent_invoke now) st [n_wait_for_analyses] w
  = Running (apply_update st (wait_for_analyses_node st))
      [check_analyses_completion st] w.
Proof.
  unfold superstep. cbn [run_nodes]. rewrite wait_assoc.
  unfold bind, ret. cbv beta iota zeta.
  unfold next_due. cbn [flat_map map snd fst fold_left].
  rewrite wait_targets, app_nil_r.
  rewrite (routing_reads_flags _ _ (wait_keeps_flags st)).
  unfold check_analyses_completion. destruct (all (completed_flags st)); reflexivity.
Qed.

(** A barrier that sees a false flag is due again, with the flags as they
    were; so it stays due for ever. *)
Lemma barrier_stays_due (agent_invoke : oracle) (now : clock) r n :
  ∀ st w,
    flags st !! role_key r = Some false →
    ∃ st' w',
      steps (build_multi_agent_graph agent_invoke now) n
        (Running st [n_wait_for_analyses] w)
      = Running st' [n_wait_for_analyses] w' ∧
      flags st' !! role_key r = Some false.
Proof.
  induction n as [|n IH]; intros st w Hf.
  - eexists _, _. split; [reflexivity | exact Hf].
  - cbn [steps step]. rewrite wait_superstep, (unfinished_role_waits st r Hf).
    apply IH. now rewrite wait_keeps_flags.
Qed.

Lemma truthy_app {A} (a b : list A) :
  truthy (Some (a ++ b)) = truthy (Some a) || truthy (Some b).
Proof. destruct a, b; reflexivity. Qed.

Lemma join_cons_cons sep a b l :
  join sep (a :: b :: l) = a ++ sep ++ join sep (b :: l).
Proof. reflexivity. Qed.

(** A joined text is non-empty as soon as one part is. *)
Lemma join_truthy sep (l1 : list str) (s : str) (l2 : list str) :
  truthy (Some s) = true →
  truthy (Some (join sep (l1 ++ s :: l2))) = true.
Proof.
  intros Hs. induction l1 as [|x l1 IH].
  - destruct l2 as [|y l2]; [exact Hs|].
    cbn [app]. rewrite join_cons_cons, truthy_app, Hs. reflexivity.
  - destruct l1 as [|y l1]; cbn [app] in *;
      rewrite join_cons_cons, !truthy_app, IH;
      now rewrite !orb_true_r.
Qed.

Lemma coordinator_keeps_invocations (now : clock) st w :
  invocations (snd (coordinator_node now st w)) = invocations w.
Proof. reflexivity. Qed.

Lemma fan_out_flags (agent_invoke : oracle) (now : clock) input :
  ∃ st2 w2,
    steps (build_multi_agent_graph agent_invoke now) 2
      (Running input [n_coordinator] world0)
    = Running st2 [n_wait_for_analyses] w2 ∧
    (∃ msgs, messages st2 = Some msgs) ∧
    revision_count st2 = revision_count input ∧
    truthy (Some (combined_analysis st2)) = true ∧
    ∀ r, flags st2 !! role_key r
         = Some (negb (raises (agent_invoke (role_index r) (role_agent r)
                                 (role_task r (after_coordinator now input))))).
Proof.
  cbn [steps step]. rewrite coordinator_superstep.
  destruct (executors_superstep agent_invoke now
              (apply_update input (fst (coordinator_node now input world0)))
              (snd (coordinator_node now input world0)))
    as (st2 & w2 & E & Hm & Hrc & (a1 & a2 & a3 & Ha & Hne) & F1 & F2 & F3).
  rewrite coordinator_keeps_invocations in F1, F2, F3.
  exists st2, w2. split; [exact E|]. split; [exact Hm|]. split; [exact Hrc|].
  split.
  - unfold combined_analysis. rewrite Ha. cbn [default]. unfold id.
    apply join_truthy. now destruct a1.
  - intros []; assumption.
Qed.

Lemma steps_add g a b x : steps g (a + b) x = steps g b (steps g a x).
Proof.
  revert x. induction a as [|a IH]; intros x; [reflexivity|].
  cbn [Nat.add steps]. apply IH.
Qed.

Lemma steps_one g st due w : steps g 1 (Running st due w) = superstep g st due w.
Proof. reflexivity. Qed.

Lemma steps_finished g n st w : steps g n (Finished st w) = Finished st w.
Proof. induction n as [|n IH]; [reflexivity | exact IH]. Qed.

(** C2, on the code. If the invocation of one role's analysis node raises,
    the run of the graph is never over: after any number of supersteps it
    has not reached the end, and from the second superstep on the barrier
    alone is due. *)
Theorem failed_executor_blocks_the_run (r : role) (agent_invoke : oracle)
    (now : clock) (input : MultiAgentState) (n : nat) :
  raises (agent_invoke (role_index r) (role_agent r)
            (role_task r (after_coordinator now input))) = true →
  is_finished (graph_invoke (build_multi_agent_graph agent_invoke now) input n)
    = false ∧
  ((2 <= n)%nat →
   run_due (graph_invoke (build_multi_agent_graph agent_invoke now) input n)
     = [n_wait_for_analyses]).
Proof.
  intros Hr. unfold graph_invoke. rewrite start_targets.
  destruct n as [|[|n]].
  - split; [reflexivity | lia].
  - cbn [steps step]. rewrite coordinator_superstep. split; [reflexivity | lia].
  - change (S (S n)) with (2 + n)%nat.
    rewrite steps_add.
    destruct (fan_out_flags agent_invoke now input)
      as (st2 & w2 & E & _ & _ & _ & F).
    rewrite E. specialize (F r). rewrite Hr in F. cbn [negb] in F.
    destruct (barrier_stays_due agent_invoke now r n st2 w2 F)
      as (st' & w' & E' & _).
    rewrite E'. split; reflexivity.
Qed.

Lemma failed_executor_blocks_the_run_example :
  is_finished
    (graph_invoke (build_multi_agent_graph fundamental_raises fixed_clock)
       (input_of_query (lit "Evaluate Company X")) 25) = false ∧
  run_due
    (graph_invoke (build_multi_agent_graph fundamental_raises fixed_clock)
       (input_of_query (lit "Evaluate Company X")) 25)
  = [n_wait_for_analyses].
Proof.
  destruct (failed_executor_blocks_the_run fundamental fundamental_raises
              fixed_clock (input_of_query (lit "Evaluate Company X")) 25 eq_refl)
    as [Hrun Hdue].
  split; [exact Hrun | apply Hdue; lia].
Defined.

(** *** Runs in which the three analyses succeed *)

Lemma superstep_single g st name (f : node_fn) w u w' :
  assoc name (nodes g) = Some f →
  f st w = (Ok u, w') →
  superstep g st [name] w =
    match dedup_names []
            (List.filter (fun n => negb (eqb_str n END))
               (targets g name (apply_update st u))) with
    | [] => Finished (apply_update st u) w'
    | due' => Running (apply_update st u) due' w'
    end.
Proof.
  intros Hf Hr. unfold superstep. cbn [run_nodes]. rewrite Hf.
  unfold bind. rewrite Hr. unfold ret. cbv beta iota zeta.
  unfold next_due. cbn [flat_map map snd fst fold_left].
  now rewrite app_nil_r.
Qed.

(** Whichever branch the review takes, its update writes a message, maybe
    feedback records, and the stage. *)
Lemma peer_review_update_shape (agent_invoke : oracle) (now : clock) st w :
  ∃ text records stage,
    fst (peer_review_node agent_invoke now st w) =
      {| u_messages := Some [AIMessage text];
         u_original_query := None; u_analyses := None;
         u_agent_feedbacks := records; u_revision_count := None;
         u_consensus_reached := None; u_final_report := None;
         u_workflow_stage := Some stage;
         u_completion_status := None |}.
Proof.
  destruct (truthy (Some (combined_analysis st))) eqn:Hc.
  - rewrite (peer_review_run _ _ _ _ Hc). eexists _, _, _. reflexivity.
  - unfold peer_review_node. fold (combined_analysis st). rewrite Hc.
    eexists _, _, _. reflexivity.
Qed.

Lemma peer_review_superstep (agent_invoke : oracle) (now : clock) st w :
  ∃ st' w',
    superstep (build_multi_agent_graph agent_invoke now) st [n_peer_review] w
    = Running st' [n_senior_synthesis] w' ∧
    (∃ msgs, messages st' = Some msgs) ∧
    revision_count st' = revision_count st.
Proof.
  destruct (peer_review_update_shape agent_invoke now st w)
    as (text & records & stage & E).
  destruct (peer_review_node agent_invoke now st w) as [u w1] eqn:Hrun.
  cbn [fst] in E. subst u.
  rewrite (superstep_single (build_multi_agent_graph agent_invoke now) st n_peer_review
             (returns (peer_review_node agent_invoke now)) w _ w1 eq_refl)
    by (unfold returns, bind, ret; now rewrite Hrun).
  eexists _, _. split; [reflexivity|]. split; [eexists|]; reflexivity.
Qed.

Lemma synthesis_superstep (agent_invoke : oracle) (now : clock) st w msgs :
  messages st = Some msgs →
  ∃ st' w' report,
    superstep (build_multi_agent_graph agent_invoke now) st [n_senior_synthesis] w
    = Running st' [n_consensus_check] w' ∧
    (∃ msgs', messages st' = Some msgs') ∧
    revision_count st' = revision_count st ∧
    final_report st' = Val report.
Proof.
  intros Hm.
  destruct (synthesis_run agent_invoke now st w msgs Hm) as (text & stage & E).
  rewrite (superstep_single (build_multi_agent_graph agent_invoke now) st n_senior_synthesis
             (senior_synthesis_node agent_invoke now) w _ _ eq_refl E).
  eexists _, _, _. split; [reflexivity|].
  split; [eexists; reflexivity|]. split; reflexivity.
Qed.

(** The superstep of the gate: the run is over when consensus is set, and
    the review is due again, with the count raised by one, when it is not. *)
Lemma consensus_superstep (agent_invoke : oracle) (now : clock) st w n report msgs :
  get (revision_count st) (Some 0) = Some n →
  final_report st = Val report →
  messages st = Some msgs →
  (∃ st', superstep (build_multi_agent_graph agent_invoke now) st
            [n_consensus_check] w = Finished st' w ∧
          consensus_reached st' = Val true ∧
          revision_count st' = Val n) ∨
  (∃ st', superstep (build_multi_agent_graph agent_invoke now) st
            [n_consensus_check] w = Running st' [n_peer_review] w ∧
          n < 2 ∧
          revision_count st' = Val (n + 1) ∧
          messages st' = Some msgs).
Proof.
  intros Hn Hr Hm.
  assert (∃ c k, consensus_check_node st = Ok (consensus_update c k) ∧
                 (c = true ∧ k = n ∨ c = false ∧ k = n + 1 ∧ n < 2))
    as (c & k & Hgate & Hck).
  { unfold consensus_check_node. rewrite Hn, Hr. cbn [get].
    destruct (Z.ltb_spec n 2).
    - destruct (Z.of_nat (length report) >? 500); eexists _, _;
        (split; [reflexivity|]); [left | right]; auto.
    - eexists _, _. split; [reflexivity|]. left; auto. }
  rewrite (superstep_single (build_multi_agent_graph agent_invoke now) st n_consensus_check
             (fun st => ret (consensus_check_node st)) w
             (consensus_update c k) w eq_refl)
    by (unfold ret; now rewrite Hgate).
  destruct Hck as [[-> ->] | (-> & -> & Hlt)]; [left | right];
    eexists; (split; [reflexivity|]).
  - split; reflexivity.
  - split; [exact Hlt|]. split; [reflexivity | exact Hm].
Qed.

(** One pass of review, synthesis and gate: either the run is over with
    consensus set and the count unchanged, or the count was below 2, has
    grown by one, and the review is due again. *)
Lemma revision_cycle (agent_invoke : oracle) (now : clock) st w n msgs :
  messages st = Some msgs →
  get (revision_count st) (Some 0) = Some n →
  (∃ st' w',
     steps (build_multi_agent_graph agent_invoke now) 3
       (Running st [n_peer_review] w) = Finished st' w' ∧
     consensus_reached st' = Val true ∧ revision_count st' = Val n) ∨
  (∃ st' w' msgs',
     steps (build_multi_agent_graph agent_invoke now) 3
       (Running st [n_peer_review] w) = Running st' [n_peer_review] w' ∧
     n < 2 ∧ revision_count st' = Val (n + 1) ∧ messages st' = Some msgs').
Proof.
  intros Hm Hn. cbn [steps step].
  destruct (peer_review_superstep agent_invoke now st w)
    as (st1 & w1 & E1 & (m1 & Hm1) & Hrc1).
  rewrite E1. cbn [step].
  destruct (synthesis_superstep agent_invoke now st1 w1 m1 Hm1)
    as (st2 & w2 & report & E2 & (m2 & Hm2) & Hrc2 & Hfr).
  rewrite E2. cbn [step].
  assert (get (revision_count st2) (Some 0) = Some n) as Hn2
    by now rewrite Hrc2, Hrc1.
  destruct (consensus_superstep agent_invoke now st2 w2 n report m2 Hn2 Hfr Hm2)
    as [(st3 & E3 & Hc & Hk) | (st3 & E3 & Hlt & Hk & Hm3)];
    rewrite E3; [left | right]; eauto 10.
Qed.

(** X21. When the three analyses succeed on a fresh input, the run is over
    after at most 12 supersteps, with consensus set and a count of at most
    2: the cycle of review, synthesis and gate runs at most three times. *)
Lemma successful_run_finishes (agent_invoke : oracle) (now : clock)
    (input : MultiAgentState) :
  (∀ r, raises (agent_invoke (role_index r) (role_agent r)
                  (role_task r (after_coordinator now input))) = false) →
  revision_count input = Absent →
  ∃ st w k,
    graph_invoke (build_multi_agent_graph agent_invoke now) input 12
      = Finished st w ∧
    consensus_reached st = Val true ∧
    revision_count st = Val k ∧ 0 <= k <= 2.
Proof.
  intros Hok Hrc. unfold graph_invoke. rewrite start_targets.
  change 12%nat with (2 + (1 + (3 + (3 + 3))))%nat. rewrite steps_add.
  destruct (fan_out_flags agent_invoke now input)
    as (st2 & w2 & E & (m2 & Hm2) & Hrc2 & _ & F).
  rewrite E, steps_add, steps_one, wait_superstep.
  assert (check_analyses_completion st2 = n_peer_review) as ->.
  { unfold check_analyses_completion.
    assert (all (completed_flags st2) = true) as ->; [|reflexivity].
    apply all_completed_flags.
    pose proof (F fundamental) as F1. pose proof (F technical) as F2.
    pose proof (F risk) as F3. rewrite Hok in F1, F2, F3. auto. }
  assert (∃ m3, messages (apply_update st2 (wait_for_analyses_node st2)) = Some m3)
    as (m3 & Hm3).
  { unfold wait_for_analyses_node, apply_update.
    destruct (all (completed_flags st2)); cbn [messages u_messages]; eauto. }
  assert (get (revision_count (apply_update st2 (wait_for_analyses_node st2)))
            (Some 0) = Some 0) as Hn3.
  { unfold wait_for_analyses_node, apply_update.
    destruct (all (completed_flags st2));
      cbn [revision_count u_revision_count overwrite]; now rewrite Hrc2, Hrc. }
  rewrite steps_add.
  destruct (revision_cycle agent_invoke now _ w2 0 m3 Hm3 Hn3)
    as [(s1 & v1 & E1 & Hc1 & Hk1) | (s1 & v1 & n1 & E1 & _ & Hk1 & Hn1)];
    rewrite E1.
  { rewrite steps_finished. exists s1, v1, 0. repeat split; auto; lia. }
  rewrite steps_add.
  assert (get (revision_count s1) (Some 0) = Some 1) as Hg1 by now rewrite Hk1.
  destruct (revision_cycle agent_invoke now s1 v1 1 n1 Hn1 Hg1)
    as [(s2 & v2 & E2 & Hc2 & Hk2) | (s2 & v2 & n2 & E2 & _ & Hk2 & Hn2)];
    rewrite E2.
  { rewrite steps_finished. exists s2, v2, 1. repeat split; auto; lia. }
  assert (get (revision_count s2) (Some 0) = Some 2) as Hg2 by now rewrite Hk2.
  destruct (revision_cycle agent_invoke now s2 v2 2 n2 Hn2 Hg2)
    as [(s3 & v3 & E3 & Hc3 & Hk3) | (s3 & v3 & n3 & E3 & Hlt & _)];
    [|lia].
  rewrite E3. exists s3, v3, 2. repeat split; auto; lia.
Qed.

(** A run on the query of the specification's scenario, with agents that
    answer in 600 characters: over after six supersteps, with three
    analyses, one feedback record, consensus set and a count of 0. *)
Example run_with_long_answers :
  let g := build_multi_agent_graph long_answers fixed_clock in
  let r := graph_invoke g (input_of_query (lit "Evaluate Company X")) 6 in
  is_finished r = true ∧
  (consensus_reached <$> run_state r) = Some (Val true) ∧
  (revision_count <$> run_state r) = Some (Val 0) ∧
  (workflow_stage <$> run_state r) = Some (Val (lit "consensus_checked")) ∧
  (length <$> (run_state r ≫= analyses)) = Some 3%nat ∧
  (length <$> (run_state r ≫= fun st => get (agent_feedbacks st) None)) = Some 1%nat ∧
  length (invocations (run_world r)) = 7%nat.
Proof. vm_compute. repeat split. Qed.

(** * Further properties *)

(** ** The two reducers *)

(** X1. [add_completion_status] is a key-wise union in which the incoming
    keys win: a key of [new] reads as [new] has it, every other key as
    [existing] had it, a missing [existing] counting as the empty
    dictionary. Merging the empty dictionary changes nothing, and merging
    the same update twice is merging it once. *)
Theorem add_completion_status_lookup (existing : option (gmap str bool))
    (new : gmap str bool) (k : str) :
  add_completion_status existing new !! k
    = match new !! k with
      | Some v => Some v
      | None => default ∅ existing !! k
      end ∧
  add_completion_status existing ∅ = default ∅ existing ∧
  add_completion_status (Some (add_completion_status existing new)) new
    = add_completion_status existing new.
Proof.
  unfold add_completion_status. split; [|split].
  - rewrite lookup_union.
    destruct (new !! k), existing as [m|]; cbn [default]; unfold id;
      try destruct (m !! k); reflexivity.
  - destruct existing; cbn [default]; apply (left_id_L ∅ (∪)).
  - rewrite (assoc_L (∪)). now rewrite (idemp_L (∪)).
Qed.

(** X2. Updates of two different keys can be merged in either order: the
    resulting dictionary is the same. On the same key the later update
    wins. *)
Theorem completion_updates_commute (existing : option (gmap str bool))
    (k1 k2 : str) (b1 b2 : bool) :
  k1 ≠ k2 →
  add_completion_status (Some (add_completion_status existing {[k1 := b1]}))
    {[k2 := b2]}
  = add_completion_status (Some (add_completion_status existing {[k2 := b2]}))
      {[k1 := b1]} ∧
  add_completion_status (Some (add_completion_status existing {[k1 := b1]}))
    {[k1 := b2]} !! k1 = Some b2.
Proof.
  intros Hne. unfold add_completion_status. split.
  - rewrite !(assoc_L (∪)). f_equal. apply map_union_comm.
    now apply map_disjoint_singleton_l_2, lookup_singleton_ne.
  - apply lookup_union_Some_l, lookup_singleton_eq.
Qed.

Lemma completion_updates_commute_example :
  add_completion_status (Some (add_completion_status None {[k_fundamental := true]}))
    {[k_risk := false]}
  = add_completion_status (Some (add_completion_status None {[k_risk := false]}))
      {[k_fundamental := true]} ∧
  add_completion_status (Some (add_completion_status None {[k_fundamental := true]}))
    {[k_fundamental := false]} !! k_fundamental = Some false.
Proof.
  refine (completion_updates_commute None k_fundamental k_risk true false _).
  discriminate.
Defined.

(** X3. [add_analyses] only appends: what was in the list stays in front, in
    order; two merges in a row are one merge of the two lists joined; an
    empty update changes nothing; a missing list counts as empty. *)
Theorem add_analyses_appends (existing : option (list str)) (a b : list str) :
  add_analyses (Some (add_analyses existing (StrList a))) (StrList b)
    = add_analyses existing (StrList (a ++ b)) ∧
  add_analyses existing (StrList []) = default [] existing ∧
  add_analyses None (StrList a) = a ∧
  default [] existing `prefix_of` add_analyses existing (StrList a) ∧
  length (add_analyses existing (StrList a))
    = (length (default [] existing) + length a)%nat.
Proof.
  unfold add_analyses.
  destruct existing as [l|]; cbn [default]; unfold id;
    repeat split; rewrite ?app_nil_r, ?app_assoc, ?length_app;
    try reflexivity; try (now eexists); apply prefix_nil.
Qed.

(** ** Coordinator and barrier node *)

Lemma coordinator_update (now : clock) st w :
  coordinator_node now st w =
    ({| u_messages := Some [AIMessage (coordinator_message now st w)];
        u_original_query := Some (coordinator_query now st w);
        u_analyses := None; u_agent_feedbacks := None;
        u_revision_count := None; u_consensus_reached := None;
        u_final_report := None;
        u_workflow_stage := Some (lit "coordination_started");
        u_completion_status := Some ∅ |},
     {| invocations := invocations w; clock_reads := S (clock_reads w) |}).
Proof. reflexivity. Qed.

Lemma coordinator_message_truthy (now : clock) st w :
  truthy (Some (coordinator_message now st w)) = true.
Proof. reflexivity. Qed.

Lemma coordinator_query_cases (now : clock) st w :
  coordinator_query now st w =
    match get (original_query st) None with
    | Some (c :: q) => c :: q
    | _ => match messages st with
           | Some (m :: _) => content m
           | _ => []
           end
    end.
Proof.
  unfold coordinator_query, coordinator_node, bind, ret, first_message_content.
  cbn [fst u_original_query default]. unfold id.
  destruct (get (original_query st) None) as [[|c q]|];
    destruct (messages st) as [[|m ms]|]; reflexivity.
Qed.

(** X4. The coordinator settles the query without ever failing and without
    invoking an agent: a non-empty [original_query] is kept; otherwise the
    content of the first message is taken; with neither, the query is the
    empty string. The value it writes is always a string, also when the key
    held [None]. It reads the clock once. *)
Theorem coordinator_settles_query (now : clock) (st : MultiAgentState) (w : World) :
  u_original_query (fst (coordinator_node now st w))
    = Some (match get (original_query st) None with
            | Some (c :: q) => c :: q
            | _ => match messages st with
                   | Some (m :: _) => content m
                   | _ => []
                   end
            end) ∧
  original_query (apply_update st (fst (coordinator_node now st w)))
    = Val (coordinator_query now st w) ∧
  invocations (snd (coordinator_node now st w)) = invocations w ∧
  clock_reads (snd (coordinator_node now st w)) = S (clock_reads w).
Proof.
  rewrite <- (coordinator_query_cases now st w), coordinator_update.
  repeat split.
Qed.

(** X5. The coordinator does not reset the completion flags: the empty
    dictionary it returns goes through the reducer, so every flag the state
    held before is still there afterwards, and the join routing answers as
    it did before. *)
Theorem coordinator_keeps_flags (now : clock) (st : MultiAgentState) (w : World) :
  flags (apply_update st (fst (coordinator_node now st w))) = flags st ∧
  check_analyses_completion (apply_update st (fst (coordinator_node now st w)))
    = check_analyses_completion st.
Proof.
  assert (flags (apply_update st (fst (coordinator_node now st w))) = flags st) as E.
  { rewrite coordinator_update.
    unfold flags, apply_update, add_completion_status.
    cbn [fst completion_status u_completion_status default]. unfold id.
    apply (left_id_L ∅ (∪)). }
  split; [exact E | now apply routing_reads_flags].
Qed.

(** X6. The query the analysis nodes work on in the graph, that is on the
    state the coordinator leaves: the input's [original_query] when it is a
    non-empty string; otherwise the content of the input's first message;
    and when the input has neither, the coordinator's own start message,
    which is then the first message of the transcript. *)
Theorem query_after_coordinator (now : clock) (input : MultiAgentState) :
  node_query (after_coordinator now input)
    = Some (match get (original_query input) None with
            | Some (c :: q) => c :: q
            | _ => match messages input with
                   | Some (m :: _) => content m
                   | _ => coordinator_message now input world0
                   end
            end) ∧
  truthy (Some (coordinator_message now input world0)) = true.
Proof.
  split; [|apply coordinator_message_truthy].
  unfold after_coordinator. rewrite coordinator_update.
  unfold node_query, first_message_content, apply_update, add_messages.
  cbn [fst original_query messages u_original_query u_messages overwrite get].
  rewrite coordinator_query_cases.
  destruct (get (original_query input) None) as [[|c q]|];
    destruct (messages input) as [[|m ms]|]; cbn [app truthy negb andb];
    try reflexivity;
    destruct (content m) eqn:Hc; cbn [truthy negb andb app]; now rewrite ?Hc.
Qed.

(** X7. The barrier node and the join routing function take the same
    decision: the node reports the stage [all_analyses_completed], and
    writes its message, exactly when the routing answers [peer_review].
    The node never writes a flag, so evaluating barrier and routing again
    gives the same answer. *)
Theorem barrier_agrees_with_routing (st : MultiAgentState) :
  (u_workflow_stage (wait_for_analyses_node st) = Some (lit "all_analyses_completed")
     ↔ check_analyses_completion st = n_peer_review) ∧
  (u_workflow_stage (wait_for_analyses_node st) = Some (lit "waiting_for_analyses")
     ↔ check_analyses_completion st = n_wait_for_analyses) ∧
  (u_messages (wait_for_analyses_node st) = None
     ↔ check_analyses_completion st = n_wait_for_analyses) ∧
  u_completion_status (wait_for_analyses_node st) = None ∧
  check_analyses_completion (apply_update st (wait_for_analyses_node st))
    = check_analyses_completion st.
Proof.
  split; [|split; [|split; [|split]]];
    try (apply routing_reads_flags, wait_keeps_flags);
    unfold wait_for_analyses_node, check_analyses_completion;
    destruct (all (completed_flags st)); cbn [u_workflow_stage u_messages];
    try reflexivity; split; intros H; try reflexivity; discriminate H.
Qed.

(** ** Analysis nodes on success, and what they leave alone *)

(** X8. When the invocation of a role's analysis node returns content [c],
    the node appends the entry made of the role's tag and [c], writes the
    role's completion flag as true, and has invoked its agent once with the
    role's task and read the clock once. *)
Theorem executor_success_sets_flag (r : role) (agent_invoke : oracle)
    (now : clock) (st : MultiAgentState) (w : World) (c : str) :
  agent_invoke (length (invocations w)) (role_agent r) (role_task r st) = Returned c →
  ∃ message,
    let u := analysis_update message (role_tag r ++ c) (role_key r) true in
    executor_node r agent_invoke now st w
      = (u, {| invocations := invocations w ++ [(role_agent r, role_task r st)];
               clock_reads := S (clock_reads w) |}) ∧
    analyses (apply_update st u) = Some (default [] (analyses st) ++ [role_tag r ++ c]) ∧
    flags (apply_update st u) !! role_key r = Some true.
Proof.
  intros Hr.
  destruct (executor_run r agent_invoke now st w) as (m & d & b & E & Ho).
  rewrite Hr in Ho. destruct Ho as [-> ->].
  exists m. cbv zeta. split; [exact E|]. split.
  - unfold apply_update, analysis_update, add_analyses.
    cbn [analyses u_analyses]. now destruct (analyses st).
  - apply flags_after_analysis_update.
Qed.

Lemma executor_success_example :
  ∃ message,
    let u := analysis_update message (lit "风险分析: ok") k_risk true in
    risk_analysis_node short_answers fixed_clock
      (input_of_query (lit "Evaluate Company X")) world0
      = (u, {| invocations :=
                 [(risk_agent,
                   lit "请对以下投资标的进行全面的风险评估: Evaluate Company X")];
               clock_reads := 1 |}) ∧
    analyses (apply_update (input_of_query (lit "Evaluate Company X")) u)
      = Some [lit "风险分析: ok"] ∧
    flags (apply_update (input_of_query (lit "Evaluate Company X")) u) !! k_risk
      = Some true.
Proof.
  exact (executor_success_sets_flag risk short_answers fixed_clock
           (input_of_query (lit "Evaluate Company X")) world0 (lit "ok") eq_refl).
Defined.

(** X9. An analysis node writes its own completion flag and no other: every
    other key of the flags reads as before. It adds exactly one entry to
    the analyses and leaves the query, the feedback, the revision count,
    the consensus flag, the report and the stage as they were, whether its
    invocation returned or raised. *)
Theorem executor_writes_own_key_only (r : role) (agent_invoke : oracle)
    (now : clock) (st : MultiAgentState) (w : World) :
  let st' := apply_update st (fst (executor_node r agent_invoke now st w)) in
  (∀ k : str, k ≠ role_key r → flags st' !! k = flags st !! k) ∧
  (∃ entry, analyses st' = Some (default [] (analyses st) ++ [entry])) ∧
  original_query st' = original_query st ∧
  agent_feedbacks st' = agent_feedbacks st ∧
  revision_count st' = revision_count st ∧
  consensus_reached st' = consensus_reached st ∧
  final_report st' = final_report st ∧
  workflow_stage st' = workflow_stage st.
Proof.
  destruct (executor_run r agent_invoke now st w) as (m & d & b & E & _).
  rewrite E. cbv zeta. cbn [fst]. split; [|split].
  - intros k Hk. unfold flags, apply_update, analysis_update, add_completion_status.
    cbn [completion_status u_completion_status default]. unfold id.
    rewrite lookup_union_r; [reflexivity|].
    apply lookup_singleton_ne. congruence.
  - eexists. unfold apply_update, analysis_update, add_analyses.
    cbn [analyses u_analyses]. now destruct (analyses st).
  - repeat split.
Qed.

(** ** When the review is skipped *)

Lemma join_truthy_iff (sep : str) (l : list str) :
  truthy (Some sep) = true →
  truthy (Some (join sep l)) = false ↔ l = [] ∨ l = [[]].
Proof.
  intros Hs. destruct l as [|p [|q l]].
  - split; [now left | reflexivity].
  - cbn [join]. split.
    + intros H. right. now destruct p.
    + intros [H|H]; [discriminate | now inversion H].
  - rewrite join_cons_cons, !truthy_app, Hs, orb_true_r.
    split; [discriminate | intros [H|H]; discriminate].
Qed.

(** X10. The review is skipped, with no agent invoked, exactly when the
    analyses are missing, empty, or a single empty string: the test is made
    on the joined text, not on the list. In every other case the three
    reviewing agents are invoked. *)
Theorem peer_review_skipped_iff (agent_invoke : oracle) (now : clock)
    (st : MultiAgentState) (w : World) :
  (invocations (snd (peer_review_node agent_invoke now st w)) = invocations w
     ↔ default [] (analyses st) = [] ∨ default [] (analyses st) = [[]]) ∧
  (length (invocations (snd (peer_review_node agent_invoke now st w)))
     = length (invocations w)
   ∨ length (invocations (snd (peer_review_node agent_invoke now st w)))
     = (length (invocations w) + 3)%nat).
Proof.
  pose proof (join_truthy_iff (nl ++ nl) (default [] (analyses st)) eq_refl) as Hj.
  fold (combined_analysis st) in Hj.
  destruct (truthy (Some (combined_analysis st))) eqn:Hc.
  - rewrite (peer_review_run _ _ _ _ Hc). cbn [snd invocations].
    rewrite length_app. cbn [length review_invocations]. split; [|now right].
    split.
    + intros H. apply (f_equal length) in H. rewrite length_app in H.
      cbn [length review_invocations] in H. lia.
    + intros H. apply Hj in H. discriminate.
  - assert (snd (peer_review_node agent_invoke now st w) = w) as ->.
    { unfold peer_review_node. fold (combined_analysis st). now rewrite Hc. }
    split; [|now left]. split; [intros _; now apply Hj | reflexivity].
Qed.

(** ** Synthesis *)

(** X11. The synthesis fails exactly when the state has no [messages] key,
    with a [KeyError] and without invoking an agent or reading the clock.
    With the key present, also with an empty list, it invokes the senior
    agent once, on the task built from the transcript, and reads the clock
    once. *)
Theorem synthesis_fails_only_without_messages (agent_invoke : oracle)
    (now : clock) (st : MultiAgentState) (w : World) :
  (is_ok (fst (senior_synthesis_node agent_invoke now st w)) = false
     ↔ messages st = None) ∧
  (messages st = None →
     senior_synthesis_node agent_invoke now st w
       = (Err (KeyError (lit "messages")), w)) ∧
  (∀ msgs, messages st = Some msgs →
     snd (senior_synthesis_node agent_invoke now st w)
       = {| invocations := invocations w ++ [(senior_agent, synthesis_task_of msgs)];
            clock_reads := S (clock_reads w) |}).
Proof.
  destruct (messages st) as [msgs|] eqn:Hm.
  - destruct (synthesis_run agent_invoke now st w msgs Hm) as (text & stage & E).
    rewrite E. cbn [fst snd is_ok]. split; [|split].
    + split; discriminate.
    + discriminate.
    + now intros ? [= <-].
  - assert (senior_synthesis_node agent_invoke now st w
            = (Err (KeyError (lit "messages")), w)) as E.
    { unfold senior_synthesis_node. now rewrite Hm. }
    rewrite E. cbn [fst snd is_ok]. split; [|split]; [split| |]; try reflexivity.
    discriminate.
Qed.

(** X12. Of the state the synthesis reads the messages and nothing else, and
    of the messages only those written by the nodes: two states whose node
    messages have the same contents in the same order give the same result
    in the same world, whatever their human messages, query, analyses,
    feedback or counters. *)
Theorem synthesis_reads_node_messages_only (agent_invoke : oracle) (now : clock)
    (st st' : MultiAgentState) (w : World) (msgs msgs' : list Message) :
  messages st = Some msgs →
  messages st' = Some msgs' →
  map content (List.filter isinstance_AIMessage msgs)
    = map content (List.filter isinstance_AIMessage msgs') →
  senior_synthesis_node agent_invoke now st w
    = senior_synthesis_node agent_invoke now st' w.
Proof.
  intros Hm Hm' Heq. unfold senior_synthesis_node. now rewrite Hm, Hm', Heq.
Qed.

Lemma synthesis_reads_node_messages_only_example :
  senior_synthesis_node long_answers fixed_clock synthesis_input_a world0
    = senior_synthesis_node long_answers fixed_clock synthesis_input_b world0.
Proof.
  exact (synthesis_reads_node_messages_only long_answers fixed_clock
           synthesis_input_a synthesis_input_b world0 _ _ eq_refl eq_refl eq_refl).
Defined.

(** ** Consensus gate: errors and bounds *)

(** X13. The consensus gate fails exactly when the revision count is [None],
    or when the count is below 2 and the report is [None]; the error is
    then a [TypeError]. A missing key never makes it fail, and with a count
    of 2 or more the report is not looked at. *)
Theorem consensus_gate_type_error (st : MultiAgentState) :
  (consensus_check_node st = Err TypeError
     ↔ revision_count st = PyNone
       ∨ (∃ n, get (revision_count st) (Some 0) = Some n ∧ n < 2)
         ∧ final_report st = PyNone) ∧
  (∀ e, consensus_check_node st = Err e → e = TypeError) ∧
  (revision_count st = Absent → final_report st = Absent →
     consensus_check_node st = Ok (consensus_update false 1)).
Proof.
  unfold consensus_check_node.
  destruct (revision_count st) as [| |n]; cbn [get];
    [ change (0 <? 2) with true; cbv iota | | destruct (Z.ltb_spec n 2) ];
    try (destruct (final_report st) as [| |r]; cbn [get];
         try change (Z.of_nat (length (@nil N)) >? 500) with false; cbv iota;
         try destruct (Z.of_nat (length r) >? 500));
    (split; [split|split]);
    try solve [ discriminate | reflexivity | intros; congruence
              | intros _; now left
              | intros _; right;
                (split; [eexists; split; [reflexivity|lia] | reflexivity])
              | intros [HH|[(m & Hm & Hm') HH]]; try discriminate;
                injection Hm as <-; lia ].
Qed.

(** X14. Whenever the gate returns, the count it writes is the count it read
    or one more, and it is one more exactly when consensus is cleared, which
    only happens below 2; so a count of at most 2 stays at most 2. Once the
    count written is 2 or more, the gate evaluated on the updated state sets
    consensus and keeps the count. *)
Theorem consensus_gate_count_bounds (st : MultiAgentState) (u : Update) (n : Z) :
  consensus_check_node st = Ok u →
  get (revision_count st) (Some 0) = Some n →
  ∃ (c : bool) (n' : Z),
    u = consensus_update c n' ∧
    n <= n' <= n + 1 ∧
    (c = false ↔ n' = n + 1) ∧
    (c = false → n < 2) ∧
    (n <= 2 → n' <= 2) ∧
    (2 <= n' →
       consensus_check_node (apply_update st u) = Ok (consensus_update true n')).
Proof.
  unfold consensus_check_node at 1. intros Hu Hn. rewrite Hn in Hu.
  assert (∀ c k, 2 <= k →
            consensus_check_node (apply_update st (consensus_update c k))
              = Ok (consensus_update true k)) as Hnext.
  { intros c k Hk. unfold consensus_check_node.
    cbn [apply_update revision_count u_revision_count consensus_update overwrite get].
    destruct (Z.ltb_spec k 2); [lia | reflexivity]. }
  destruct (Z.ltb_spec n 2) as [Hlt|Hge].
  - destruct (get (final_report st) (Some [])) as [r|]; [|discriminate].
    destruct (Z.of_nat (length r) >? 500); injection Hu as <-.
    + exists true, n. repeat split; try lia; try discriminate; auto.
    + exists false, (n + 1). repeat split; try lia; auto.
  - injection Hu as <-. exists true, n.
    repeat split; try lia; try discriminate; auto.
Qed.

Lemma consensus_gate_count_bounds_example :
  ∃ (c : bool) (n' : Z),
    consensus_update false 2 = consensus_update c n' ∧
    1 <= n' <= 1 + 1 ∧
    (c = false ↔ n' = 1 + 1) ∧
    (c = false → 1 < 2) ∧
    (1 <= 2 → n' <= 2) ∧
    (2 <= n' →
       consensus_check_node
         (apply_update (gate_input (Val 1) (Val (lit "short")))
            (consensus_update false 2))
       = Ok (consensus_update true n')).
Proof.
  exact (consensus_gate_count_bounds (gate_input (Val 1) (Val (lit "short")))
           (consensus_update false 2) 1 eq_refl eq_refl).
Defined.

(** ** The graph as built *)

Lemma eqb_str_eq (a b : str) : eqb_str a b = true → a = b.
Proof.
  revert b. induction a as [|x a IH]; intros [|y b] H; try discriminate.
  - reflexivity.
  - cbn [eqb_str] in H. apply andb_true_iff in H as [Hx Hab].
    apply N.eqb_eq in Hx. f_equal; auto.
Qed.

Lemma consensus_targets (agent_invoke : oracle) (now : clock) st :
  targets (build_multi_agent_graph agent_invoke now) n_consensus_check st
  = [check_consensus_routing st].
Proof.
  unfold targets. cbn. unfold check_consensus_routing.
  destruct (truthy_bool _); reflexivity.
Qed.

(** X15. The graph is well formed. Every edge leaves the start or a declared
    node and enters a declared node; every routing function leaves a
    declared node, and whatever the state, its answer is a key of its table
    and leads to the end or to a declared node; and every declared node has
    a node or the end to go to next. *)
Theorem graph_well_formed (agent_invoke : oracle) (now : clock) :
  let g := build_multi_agent_graph agent_invoke now in
  Forall
    (fun e : str * str =>
       (fst e = START ∨ is_Some (assoc (fst e) (nodes g))) ∧
       is_Some (assoc (snd e) (nodes g)))
    (edges g) ∧
  Forall
    (fun b : str * (MultiAgentState → str) * list (str * str) =>
       is_Some (assoc (fst (fst b)) (nodes g)) ∧
       ∀ st, ∃ target,
         assoc (snd (fst b) st) (snd b) = Some target ∧
         (target = END ∨ is_Some (assoc target (nodes g))))
    (conditional_edges g) ∧
  (∀ name st, is_Some (assoc name (nodes g)) →
     ∃ target rest, targets g name st = target :: rest).
Proof.
  cbv zeta. split; [|split].
  - unfold build_multi_agent_graph, edges.
    repeat (apply List.Forall_cons; [cbn [fst snd]; split |]);
      try apply List.Forall_nil;
      try (left; reflexivity); try (right; eexists; reflexivity);
      eexists; reflexivity.
  - unfold build_multi_agent_graph, conditional_edges.
    repeat (apply List.Forall_cons; [cbn [fst snd]; split |]);
      try apply List.Forall_nil; try (eexists; reflexivity); intros st.
    + unfold check_analyses_completion. destruct (all _);
        eexists; (split; [reflexivity | right; eexists; reflexivity]).
    + unfold check_consensus_routing. destruct (truthy_bool _);
        eexists; (split; [reflexivity|]);
        [left; reflexivity | right; eexists; reflexivity].
  - intros name st [f Hf].
    unfold build_multi_agent_graph, nodes in Hf. cbn [assoc] in Hf.
    repeat match type of Hf with
           | (if eqb_str name ?n then _ else _) = _ =>
               let Hn := fresh "Hn" in
               destruct (eqb_str name n) eqn:Hn;
               [apply eqb_str_eq in Hn; subst name; clear Hf |]
           end; try discriminate.
    + rewrite coordinator_targets. eauto.
    + eexists _, _. reflexivity.
    + eexists _, _. reflexivity.
    + eexists _, _. reflexivity.
    + rewrite wait_targets. eauto.
    + eexists _, _. reflexivity.
    + eexists _, _. reflexivity.
    + rewrite consensus_targets. eauto.
Qed.

(** ** Runs: what holds at every superstep *)

Lemma peer_review_superstep_state (agent_invoke : oracle) (now : clock) st w :
  ∃ text records stage w',
    superstep (build_multi_agent_graph agent_invoke now) st [n_peer_review] w
    = Running
        (apply_update st
           {| u_messages := Some [AIMessage text];
              u_original_query := None; u_analyses := None;
              u_agent_feedbacks := records; u_revision_count := None;
              u_consensus_reached := None; u_final_report := None;
              u_workflow_stage := Some stage;
              u_completion_status := None |})
        [n_senior_synthesis] w'.
Proof.
  destruct (peer_review_update_shape agent_invoke now st w)
    as (text & records & stage & E).
  destruct (peer_review_node agent_invoke now st w) as [u w1] eqn:Hrun.
  cbn [fst] in E. subst u.
  rewrite (superstep_single (build_multi_agent_graph agent_invoke now) st
             n_peer_review (returns (peer_review_node agent_invoke now))
             w _ w1 eq_refl)
    by (unfold returns, bind, ret; now rewrite Hrun).
  eexists _, _, _, _. reflexivity.
Qed.

Lemma synthesis_superstep_state (agent_invoke : oracle) (now : clock) st w msgs :
  messages st = Some msgs →
  ∃ text stage,
    superstep (build_multi_agent_graph agent_invoke now) st [n_senior_synthesis] w
    = Running
        (apply_update st
           {| u_messages := Some [AIMessage text];
              u_original_query := None; u_analyses := None;
              u_agent_feedbacks := None; u_revision_count := None;
              u_consensus_reached := Some true;
              u_final_report :=
                Some (stored_report
                        (agent_invoke (length (invocations w)) senior_agent
                           (synthesis_task_of msgs)));
              u_workflow_stage := Some stage;
              u_completion_status := None |})
        [n_consensus_check]
        {| invocations := invocations w ++ [(senior_agent, synthesis_task_of msgs)];
           clock_reads := S (clock_reads w) |}.
Proof.
  intros Hm.
  destruct (synthesis_run agent_invoke now st w msgs Hm) as (text & stage & E).
  rewrite (superstep_single (build_multi_agent_graph agent_invoke now) st
             n_senior_synthesis (senior_synthesis_node agent_invoke now)
             w _ _ eq_refl E).
  eexists _, _. reflexivity.
Qed.

Lemma consensus_gate_returns st n report :
  get (revision_count st) (Some 0) = Some n →
  final_report st = Val report →
  consensus_check_node st
    = Ok (consensus_update (negb (revises n report))
            (if revises n report then n + 1 else n)).
Proof.
  intros Hn Hr. unfold consensus_check_node, revises. rewrite Hn, Hr. cbn [get].
  destruct (Z.ltb_spec n 2); cbn [andb negb]; [|reflexivity].
  destruct (Z.gtb_spec (Z.of_nat (length report)) 500);
    destruct (Z.leb_spec (Z.of_nat (length report)) 500);
    cbn [negb]; try reflexivity; lia.
Qed.

Lemma consensus_superstep_state (agent_invoke : oracle) (now : clock) st w c k :
  consensus_check_node st = Ok (consensus_update c k) →
  superstep (build_multi_agent_graph agent_invoke now) st [n_consensus_check] w
  = if c
    then Finished (apply_update st (consensus_update c k)) w
    else Running (apply_update st (consensus_update c k)) [n_peer_review] w.
Proof.
  intros Hgate.
  rewrite (superstep_single (build_multi_agent_graph agent_invoke now) st
             n_consensus_check (fun st => ret (consensus_check_node st)) w
             (consensus_update c k) w eq_refl)
    by (unfold ret; now rewrite Hgate).
  rewrite consensus_targets, routing_after_gate. now destruct c.
Qed.

Lemma consensus_superstep_error (agent_invoke : oracle) (now : clock) st w e :
  consensus_check_node st = Err e →
  superstep (build_multi_agent_graph agent_invoke now) st [n_consensus_check] w
  = Failed e w.
Proof.
  intros Hgate. unfold superstep. cbn [run_nodes].
  change (assoc n_consensus_check (nodes (build_multi_agent_graph agent_invoke now)))
    with (Some (fun st : MultiAgentState => ret (consensus_check_node st))).
  unfold bind, ret. now rewrite Hgate.
Qed.

Lemma same_inputs_refl st : same_inputs st st.
Proof. repeat split. Qed.

(** The places of [after_fan_out] are closed under a superstep. *)
Lemma after_fan_out_step (agent_invoke : oracle) (now : clock) st0 r :
  after_fan_out st0 r →
  after_fan_out st0 (step (build_multi_agent_graph agent_invoke now) r).
Proof.
  destruct r as [st due w|st w|e w]; [|trivial|trivial].
  intros (Hsame & (msgs & Hm) & (n & Hn) & Hdue). cbn [step].
  destruct Hdue as [-> | [-> | [-> | [-> (report & Hr)]]]].
  - rewrite wait_superstep.
    unfold check_analyses_completion, wait_for_analyses_node.
    destruct (all (completed_flags st)); cbn [after_fan_out];
      (split; [exact Hsame|]); (split; [|split; [exists n; exact Hn|]]);
      [ | now (right; left) | | now left ];
      unfold apply_update; cbn [messages u_messages]; eauto.
  - destruct (peer_review_superstep_state agent_invoke now st w)
      as (text & records & stage & w' & E).
    rewrite E. cbn [after_fan_out].
    split; [exact Hsame|]. split; [|split; [exists n; exact Hn|]].
    + unfold apply_update; cbn [messages u_messages]; eauto.
    + right; right; now left.
  - destruct (synthesis_superstep_state agent_invoke now st w msgs Hm)
      as (text & stage & E).
    rewrite E. cbn [after_fan_out].
    split; [exact Hsame|]. split; [|split; [exists n; exact Hn|]].
    + unfold apply_update; cbn [messages u_messages]; eauto.
    + right; right; right. split; [reflexivity|]. eexists. reflexivity.
  - rewrite (consensus_superstep_state agent_invoke now st w _ _
               (consensus_gate_returns st n report Hn Hr)).
    destruct (revises n report); cbn [negb after_fan_out].
    + split; [exact Hsame|]. split; [|split].
      * exists msgs. exact Hm.
      * eexists. reflexivity.
      * right; now left.
    + split; [exact Hsame | reflexivity].
Qed.

Lemma after_fan_out_steps (agent_invoke : oracle) (now : clock) st0 n :
  ∀ r, after_fan_out st0 r →
       after_fan_out st0 (steps (build_multi_agent_graph agent_invoke now) n r).
Proof.
  induction n as [|n IH]; intros r Hr; [exact Hr|].
  cbn [steps]. apply IH. now apply after_fan_out_step.
Qed.

Lemma analyses_after_analysis_update st message analysis key done :
  analyses (apply_update st (analysis_update message analysis key done))
  = Some (default [] (analyses st) ++ [analysis]).
Proof.
  unfold apply_update, analysis_update, add_analyses.
  cbn [analyses u_analyses]. now destruct (analyses st).
Qed.

Lemma executors_superstep_state (agent_invoke : oracle) (now : clock) st w :
  ∃ m1 b1 d1 m2 b2 d2 m3 b3 d3 w',
    superstep (build_multi_agent_graph agent_invoke now) st
      [n_fundamental_analysis; n_technical_analysis; n_risk_analysis] w
    = Running
        (apply_update
           (apply_update
              (apply_update st
                 (analysis_update m1 (role_tag fundamental ++ b1) k_fundamental d1))
              (analysis_update m2 (role_tag technical ++ b2) k_technical d2))
           (analysis_update m3 (role_tag risk ++ b3) k_risk d3))
        [n_wait_for_analyses] w'.
Proof.
  change [n_fundamental_analysis; n_technical_analysis; n_risk_analysis]
    with [node_name fundamental; node_name technical; node_name risk].
  unfold superstep. cbn [run_nodes].
  rewrite (executor_assoc agent_invoke now fundamental),
          (executor_assoc agent_invoke now technical),
          (executor_assoc agent_invoke now risk).
  unfold returns, bind, ret.
  destruct (executor_run fundamental agent_invoke now st w)
    as (m1 & d1 & b1 & E1 & _). rewrite E1. cbv beta iota zeta.
  match goal with
  | |- context [executor_node technical agent_invoke now st ?w1] =>
      destruct (executor_run technical agent_invoke now st w1)
        as (m2 & d2 & b2 & E2 & _); rewrite E2; cbv beta iota zeta
  end.
  match goal with
  | |- context [executor_node risk agent_invoke now st ?w2] =>
      destruct (executor_run risk agent_invoke now st w2)
        as (m3 & d3 & b3 & E3 & _); rewrite E3; cbv beta iota zeta
  end.
  unfold next_due. cbn [flat_map map snd fst fold_left].
  rewrite (executor_targets agent_invoke now fundamental),
          (executor_targets agent_invoke now technical),
          (executor_targets agent_invoke now risk).
  exists m1, b1, d1, m2, b2, d2, m3, b3, d3. eexists. reflexivity.
Qed.

(** After the coordinator and the three analysis nodes: the barrier is due,
    the query is the one the coordinator settled, and the analyses are
    those of the input followed by one tagged entry of each role. *)
Lemma fan_out_inputs (agent_invoke : oracle) (now : clock) input :
  ∃ st2 w2 b1 b2 b3,
    steps (build_multi_agent_graph agent_invoke now) 2
      (Running input [n_coordinator] world0)
    = Running st2 [n_wait_for_analyses] w2 ∧
    original_query st2 = Val (coordinator_query now input world0) ∧
    analyses st2
      = Some (default [] (analyses input) ++
              [role_tag fundamental ++ b1; role_tag technical ++ b2;
               role_tag risk ++ b3]).
Proof.
  cbn [steps step]. rewrite coordinator_superstep. cbn [step].
  destruct (executors_superstep_state agent_invoke now
              (apply_update input (fst (coordinator_node now input world0)))
              (snd (coordinator_node now input world0)))
    as (m1 & b1 & d1 & m2 & b2 & d2 & m3 & b3 & d3 & w' & E).
  rewrite E. eexists _, w', b1, b2, b3. split; [reflexivity|]. split.
  - rewrite coordinator_update. reflexivity.
  - rewrite !analyses_after_analysis_update. cbn [default]. unfold id.
    rewrite <- !app_assoc. cbn [app].
    rewrite coordinator_update. reflexivity.
Qed.

(** The run after two supersteps stands in [after_fan_out] of its own state,
    when the input's revision count is not [None]. *)
Lemma fan_out_reached (agent_invoke : oracle) (now : clock) input n0 :
  get (revision_count input) (Some 0) = Some n0 →
  ∃ st2 w2 a1 a2 a3,
    steps (build_multi_agent_graph agent_invoke now) 2
      (Running input [n_coordinator] world0)
    = Running st2 [n_wait_for_analyses] w2 ∧
    after_fan_out st2 (Running st2 [n_wait_for_analyses] w2) ∧
    original_query st2 = Val (coordinator_query now input world0) ∧
    analyses st2
      = Some (default [] (analyses input) ++
              [role_tag fundamental ++ a1; role_tag technical ++ a2;
               role_tag risk ++ a3]) ∧
    ∀ r, flags st2 !! role_key r
         = Some (negb (raises (agent_invoke (role_index r) (role_agent r)
                                 (role_task r (after_coordinator now input))))).
Proof.
  intros Hn0.
  destruct (fan_out_flags agent_invoke now input)
    as (st2 & w2 & E & Hm & Hrc & _ & F).
  destruct (fan_out_inputs agent_invoke now input)
    as (st2' & w2' & a1 & a2 & a3 & E' & Hq & Ha).
  rewrite E in E'. injection E' as <- <-.
  exists st2, w2, a1, a2, a3. repeat split; try assumption.
  - exists n0. now rewrite Hrc.
  - now left.
Qed.

(** Every run of at least two supersteps, seen from the state after the
    second. *)
Lemma run_after_fan_out (agent_invoke : oracle) (now : clock) input n0 :
  get (revision_count input) (Some 0) = Some n0 →
  ∃ st2 a1 a2 a3,
    original_query st2 = Val (coordinator_query now input world0) ∧
    analyses st2
      = Some (default [] (analyses input) ++
              [role_tag fundamental ++ a1; role_tag technical ++ a2;
               role_tag risk ++ a3]) ∧
    (∀ r, flags st2 !! role_key r
          = Some (negb (raises (agent_invoke (role_index r) (role_agent r)
                                  (role_task r (after_coordinator now input)))))) ∧
    ∀ n, after_fan_out st2
           (graph_invoke (build_multi_agent_graph agent_invoke now) input (2 + n)).
Proof.
  intros Hn0.
  destruct (fan_out_reached agent_invoke now input n0 Hn0)
    as (st2 & w2 & a1 & a2 & a3 & E & Hinv & Hq & Ha & F).
  exists st2, a1, a2, a3. repeat split; try assumption.
  intros n. unfold graph_invoke. rewrite start_targets, steps_add, E.
  now apply after_fan_out_steps.
Qed.

Lemma after_fan_out_state st0 r :
  after_fan_out st0 r →
  is_failed r = false ∧ ∃ st, run_state r = Some st ∧ same_inputs st0 st.
Proof.
  destruct r as [st due w|st w|e w]; cbn [after_fan_out]; [| |tauto].
  - intros (Hs & _). split; [reflexivity|]. now exists st.
  - intros (Hs & _). split; [reflexivity|]. now exists st.
Qed.

(** In the model of the run no superstep ends in a node's exception when
    the input's revision count is missing or an integer. *)
Lemma no_superstep_raises (agent_invoke : oracle) (now : clock)
    (input : MultiAgentState) (n0 : Z) (n : nat) :
  get (revision_count input) (Some 0) = Some n0 →
  is_failed (graph_invoke (build_multi_agent_graph agent_invoke now) input n)
    = false.
Proof.
  intros Hn0. destruct n as [|[|n]].
  - reflexivity.
  - unfold graph_invoke. rewrite start_targets. cbn [steps step].
    now rewrite coordinator_superstep.
  - destruct (run_after_fan_out agent_invoke now input n0 Hn0)
      as (st2 & a1 & a2 & a3 & _ & _ & _ & Hrun).
    apply (after_fan_out_state st2), (Hrun n).
Qed.

Lemma steps_succ g n r : steps g (S n) r = step g (steps g n r).
Proof. rewrite <- Nat.add_1_r. apply steps_add. Qed.

(** X16. No node of the graph raises on a state that a run reaches, when
    the input's revision count is missing or an integer: wherever the run
    stands after [n] supersteps, running the nodes that are due there gives
    their updates and no exception. In the graph the synthesis always finds
    the messages and the gate always finds a report that is a string. This
    is about the exceptions of the nodes; the superstep limit of the engine
    is no part of it. *)
Theorem due_nodes_never_raise (agent_invoke : oracle) (now : clock)
    (input : MultiAgentState) (n0 : Z) (n : nat) :
  get (revision_count input) (Some 0) = Some n0 →
  is_ok (due_nodes_result (build_multi_agent_graph agent_invoke now)
           (graph_invoke (build_multi_agent_graph agent_invoke now) input n))
    = true.
Proof.
  intros Hn0.
  pose proof (no_superstep_raises agent_invoke now input n0 (S n) Hn0) as Hnext.
  unfold graph_invoke in *. rewrite steps_succ in Hnext.
  destruct (steps (build_multi_agent_graph agent_invoke now) n _)
    as [st due w| |]; [|reflexivity|reflexivity].
  cbn [step due_nodes_result] in *. unfold superstep in Hnext.
  destruct (run_nodes (build_multi_agent_graph agent_invoke now) st due w)
    as [[writes|e] w']; [reflexivity|].
  discriminate Hnext.
Qed.

Lemma due_nodes_never_raise_example :
  is_ok
    (due_nodes_result (build_multi_agent_graph senior_raises fixed_clock)
       (graph_invoke (build_multi_agent_graph senior_raises fixed_clock)
          (input_of_query (lit "Evaluate Company X")) 5))
    = true.
Proof.
  exact (due_nodes_never_raise senior_raises fixed_clock
           (input_of_query (lit "Evaluate Company X")) 0 5 eq_refl).
Defined.

(** X17. The query is set once: from the first superstep on, whatever the
    agents answer and however often the revision loop runs, the state's
    [original_query] is the string the coordinator settled on. *)
Theorem query_is_set_once (agent_invoke : oracle) (now : clock)
    (input : MultiAgentState) (n0 : Z) (n : nat) :
  get (revision_count input) (Some 0) = Some n0 →
  (1 <= n)%nat →
  (original_query
     <$> run_state (graph_invoke (build_multi_agent_graph agent_invoke now) input n))
  = Some (Val (coordinator_query now input world0)).
Proof.
  intros Hn0 Hn. destruct n as [|[|n]]; [lia | |].
  - unfold graph_invoke. rewrite start_targets. cbn [steps step].
    rewrite coordinator_superstep. cbn [run_state fmap option_fmap option_map].
    now rewrite coordinator_update.
  - destruct (run_after_fan_out agent_invoke now input n0 Hn0)
      as (st2 & a1 & a2 & a3 & Hq & _ & _ & Hrun).
    change (S (S n)) with (2 + n)%nat.
    destruct (after_fan_out_state st2 _ (Hrun n)) as (_ & st & -> & Hs & _).
    cbn [fmap option_fmap option_map]. now rewrite Hs, Hq.
Qed.

Lemma query_is_set_once_example :
  (original_query
     <$> run_state
           (graph_invoke (build_multi_agent_graph short_answers fixed_clock)
              (input_of_query (lit "Evaluate Company X")) 9))
  = Some (Val (coordinator_query fixed_clock
                 (input_of_query (lit "Evaluate Company X")) world0)).
Proof.
  refine (query_is_set_once short_answers fixed_clock
            (input_of_query (lit "Evaluate Company X")) 0 9 eq_refl _).
  lia.
Defined.

(** X18. The analyses are written once. From the second superstep on they
    are the input's analyses followed by three entries, one per role, each
    opening with the role's tag; no later node adds, drops or changes an
    entry, so every pass of the revision loop reviews the same text. *)
Theorem analyses_are_written_once (agent_invoke : oracle) (now : clock)
    (input : MultiAgentState) (n0 : Z) :
  get (revision_count input) (Some 0) = Some n0 →
  ∃ (b1 b2 b3 : str) (entries : list str),
    entries ≡ₚ [role_tag fundamental ++ b1; role_tag technical ++ b2;
                role_tag risk ++ b3] ∧
    ∀ n, (2 <= n)%nat →
      (analyses
         <$> run_state
               (graph_invoke (build_multi_agent_graph agent_invoke now) input n))
      = Some (Some (default [] (analyses input) ++ entries)).
Proof.
  intros Hn0.
  destruct (run_after_fan_out agent_invoke now input n0 Hn0)
    as (st2 & b1 & b2 & b3 & _ & Ha & _ & Hrun).
  exists b1, b2, b3. eexists. split; [reflexivity|].
  intros n Hn. replace n with (2 + (n - 2))%nat by lia.
  destruct (after_fan_out_state st2 _ (Hrun (n - 2)%nat))
    as (_ & st & -> & _ & Hs & _).
  cbn [fmap option_fmap option_map]. now rewrite Hs, Ha.
Qed.

Lemma analyses_are_written_once_example :
  ∃ (b1 b2 b3 : str) (entries : list str),
    entries ≡ₚ [role_tag fundamental ++ b1; role_tag technical ++ b2;
                role_tag risk ++ b3] ∧
    ∀ n, (2 <= n)%nat →
      (analyses
         <$> run_state
               (graph_invoke (build_multi_agent_graph short_answers fixed_clock)
                  (input_of_query (lit "Evaluate Company X")) n))
      = Some (Some (default [] (analyses (input_of_query (lit "Evaluate Company X")))
                      ++ entries)).
Proof.
  exact (analyses_are_written_once short_answers fixed_clock
           (input_of_query (lit "Evaluate Company X")) 0 eq_refl).
Defined.

(** X19. The barrier lets the run pass exactly when the three analysis
    invocations all returned: after the third superstep the review is due
    if none of them raised and the barrier is due again otherwise. Flags
    that the input carried play no part. *)
Theorem join_proceeds_iff_all_succeeded (agent_invoke : oracle) (now : clock)
    (input : MultiAgentState) :
  let r3 := graph_invoke (build_multi_agent_graph agent_invoke now) input 3 in
  (run_due r3 = [n_peer_review]
     ↔ ∀ r, raises (agent_invoke (role_index r) (role_agent r)
                      (role_task r (after_coordinator now input))) = false) ∧
  (run_due r3 = [n_peer_review] ∨ run_due r3 = [n_wait_for_analyses]).
Proof.
  cbv zeta. unfold graph_invoke. rewrite start_targets.
  change 3%nat with (2 + 1)%nat. rewrite steps_add.
  destruct (fan_out_flags agent_invoke now input)
    as (st2 & w2 & E & _ & _ & _ & F).
  rewrite E, steps_one, wait_superstep. cbn [run_due].
  unfold check_analyses_completion.
  destruct (all (completed_flags st2)) eqn:Ha.
  - split; [|now left]. split; [|reflexivity]. intros _ r.
    apply all_completed_flags in Ha. destruct Ha as (H1 & H2 & H3).
    specialize (F r).
    destruct r; cbn [role_key] in F; rewrite F in *;
      match goal with
      | H : Some (negb ?b) = Some true |- _ => now destruct b
      end.
  - split; [|now right]. split; [discriminate|]. intros Hall.
    assert (all (completed_flags st2) = true); [|congruence].
    apply all_completed_flags.
    pose proof (F fundamental) as F1. pose proof (F technical) as F2.
    pose proof (F risk) as F3. rewrite Hall in F1, F2, F3. auto.
Qed.

(** *** The revision loop, pass by pass *)

(** Review and synthesis: two supersteps that end before the gate, with the
    report the senior agent's invocation gave. *)
Lemma review_and_synthesis (agent_invoke : oracle) (now : clock) st w msgs :
  messages st = Some msgs →
  ∃ st2 w2 k task,
    steps (build_multi_agent_graph agent_invoke now) 2
      (Running st [n_peer_review] w)
    = Running st2 [n_consensus_check] w2 ∧
    final_report st2 = Val (stored_report (agent_invoke k senior_agent task)) ∧
    revision_count st2 = revision_count st ∧
    ∃ msgs2, messages st2 = Some msgs2.
Proof.
  intros Hm. cbn [steps step].
  destruct (peer_review_superstep_state agent_invoke now st w)
    as (text & records & stage & w1 & E1).
  rewrite E1. cbn [step].
  assert (∃ m1, messages (apply_update st
            {| u_messages := Some [AIMessage text];
               u_original_query := None; u_analyses := None;
               u_agent_feedbacks := records; u_revision_count := None;
               u_consensus_reached := None; u_final_report := None;
               u_workflow_stage := Some stage;
               u_completion_status := None |}) = Some m1) as (m1 & Hm1)
    by (eexists; reflexivity).
  destruct (synthesis_superstep_state agent_invoke now _ w1 m1 Hm1)
    as (text2 & stage2 & E2).
  rewrite E2. eexists _, _, _, _. split; [reflexivity|].
  split; [reflexivity|]. split; [reflexivity|]. eexists; reflexivity.
Qed.

(** The gate after a report: back to the review with the count raised, or
    over with the count kept. *)
Lemma gate_after_report (agent_invoke : oracle) (now : clock) st w n report msgs :
  get (revision_count st) (Some 0) = Some n →
  final_report st = Val report →
  messages st = Some msgs →
  ∃ st3,
    step (build_multi_agent_graph agent_invoke now)
      (Running st [n_consensus_check] w)
    = (if revises n report then Running st3 [n_peer_review] w else Finished st3 w) ∧
    revision_count st3 = Val (if revises n report then n + 1 else n) ∧
    consensus_reached st3 = Val (negb (revises n report)) ∧
    final_report st3 = Val report ∧
    messages st3 = Some msgs.
Proof.
  intros Hn Hr Hm. cbn [step].
  rewrite (consensus_superstep_state agent_invoke now st w _ _
             (consensus_gate_returns st n report Hn Hr)).
  exists (apply_update st
            (consensus_update (negb (revises n report))
               (if revises n report then n + 1 else n))).
  split; [destruct (revises n report); reflexivity|].
  split; [reflexivity|]. split; [reflexivity|]. split; assumption.
Qed.

(** When the three analyses succeed, the review is due after three
    supersteps, on a state with messages and the input's revision count. *)
Lemma review_due_after_three (agent_invoke : oracle) (now : clock) input :
  (∀ r, raises (agent_invoke (role_index r) (role_agent r)
                  (role_task r (after_coordinator now input))) = false) →
  ∃ st3 w3 msgs,
    graph_invoke (build_multi_agent_graph agent_invoke now) input 3
    = Running st3 [n_peer_review] w3 ∧
    messages st3 = Some msgs ∧
    revision_count st3 = revision_count input.
Proof.
  intros Hok. unfold graph_invoke. rewrite start_targets.
  change 3%nat with (2 + 1)%nat. rewrite steps_add.
  destruct (fan_out_flags agent_invoke now input)
    as (st2 & w2 & E & (m2 & Hm2) & Hrc2 & _ & F).
  rewrite E, steps_one, wait_superstep.
  assert (all (completed_flags st2) = true) as Ha.
  { apply all_completed_flags.
    pose proof (F fundamental) as F1. pose proof (F technical) as F2.
    pose proof (F risk) as F3. rewrite Hok in F1, F2, F3. auto. }
  unfold check_analyses_completion, wait_for_analyses_node. rewrite Ha.
  eexists _, _, _. split; [reflexivity|]. split.
  - unfold apply_update. cbn [messages u_messages]. reflexivity.
  - exact Hrc2.
Qed.

(** X20. A revision count of [None] in the input is only met at the gate:
    when the three analyses succeed, the run goes through the review and
    the synthesis, is still running after five supersteps, and fails with a
    [TypeError] at the sixth. *)
Theorem none_count_fails_at_gate (agent_invoke : oracle) (now : clock)
    (input : MultiAgentState) :
  revision_count input = PyNone →
  (∀ r, raises (agent_invoke (role_index r) (role_agent r)
                  (role_task r (after_coordinator now input))) = false) →
  run_due (graph_invoke (build_multi_agent_graph agent_invoke now) input 5)
    = [n_consensus_check] ∧
  ∃ w, ∀ n, (6 <= n)%nat →
    graph_invoke (build_multi_agent_graph agent_invoke now) input n
    = Failed TypeError w.
Proof.
  intros Hnone Hok.
  destruct (review_due_after_three agent_invoke now input Hok)
    as (st3 & w3 & msgs & E3 & Hm3 & Hrc3).
  destruct (review_and_synthesis agent_invoke now st3 w3 msgs Hm3)
    as (st5 & w5 & k & task & E5 & _ & Hrc5 & _).
  assert (∀ m, graph_invoke (build_multi_agent_graph agent_invoke now) input (3 + m)
               = steps (build_multi_agent_graph agent_invoke now) m
                   (Running st3 [n_peer_review] w3)) as Hfrom3.
  { intros m. unfold graph_invoke in *. now rewrite steps_add, E3. }
  split.
  - change 5%nat with (3 + 2)%nat. now rewrite Hfrom3, E5.
  - exists w5. intros n Hn. replace n with (3 + (2 + (1 + (n - 6))))%nat by lia.
    rewrite Hfrom3, steps_add, E5, steps_add, steps_one.
    rewrite (consensus_superstep_error agent_invoke now st5 w5 TypeError).
    + generalize (n - 6)%nat. intros m. induction m as [|m IH]; [reflexivity | exact IH].
    + unfold consensus_check_node. now rewrite Hrc5, Hrc3, Hnone.
Qed.

Lemma none_count_fails_at_gate_example :
  run_due (graph_invoke (build_multi_agent_graph long_answers fixed_clock)
             input_with_none_count 5)
    = [n_consensus_check] ∧
  ∃ w, ∀ n, (6 <= n)%nat →
    graph_invoke (build_multi_agent_graph long_answers fixed_clock)
      input_with_none_count n
    = Failed TypeError w.
Proof.
  refine (none_count_fails_at_gate long_answers fixed_clock
            input_with_none_count eq_refl _).
  intros r. reflexivity.
Defined.

(** X22. When the three analyses succeed on an input without a revision
    count and every report the synthesis stores is longer than 500
    characters, the run is over after exactly six supersteps: the gate is
    due at the fifth, and the sixth ends the run with consensus set and a
    count of 0. No revision takes place. *)
Theorem long_report_ends_the_run (agent_invoke : oracle) (now : clock)
    (input : MultiAgentState) :
  (∀ r, raises (agent_invoke (role_index r) (role_agent r)
                  (role_task r (after_coordinator now input))) = false) →
  revision_count input = Absent →
  (∀ k task,
     500 < Z.of_nat (length (stored_report (agent_invoke k senior_agent task)))) →
  run_due (graph_invoke (build_multi_agent_graph agent_invoke now) input 5)
    = [n_consensus_check] ∧
  ∃ st w,
    graph_invoke (build_multi_agent_graph agent_invoke now) input 6
      = Finished st w ∧
    revision_count st = Val 0 ∧
    consensus_reached st = Val true.
Proof.
  intros Hok Habs Hlong.
  destruct (review_due_after_three agent_invoke now input Hok)
    as (st3 & w3 & msgs & E3 & Hm3 & Hrc3).
  destruct (review_and_synthesis agent_invoke now st3 w3 msgs Hm3)
    as (st5 & w5 & k & task & E5 & Hr5 & Hrc5 & (m5 & Hm5)).
  assert (get (revision_count st5) (Some 0) = Some 0) as Hn5
    by now rewrite Hrc5, Hrc3, Habs.
  destruct (gate_after_report agent_invoke now st5 w5 0 _ m5 Hn5 Hr5 Hm5)
    as (st6 & E6 & Hrc6 & Hc6 & _).
  assert (revises 0 (stored_report (agent_invoke k senior_agent task)) = false) as Hrev.
  { unfold revises. specialize (Hlong k task).
    destruct (Z.leb_spec
                (Z.of_nat (length (stored_report (agent_invoke k senior_agent task))))
                500); [lia | reflexivity]. }
  rewrite Hrev in E6, Hrc6, Hc6.
  assert (∀ m, graph_invoke (build_multi_agent_graph agent_invoke now) input (3 + m)
               = steps (build_multi_agent_graph agent_invoke now) m
                   (Running st3 [n_peer_review] w3)) as Hfrom3.
  { intros m. unfold graph_invoke in *. now rewrite steps_add, E3. }
  split.
  - change 5%nat with (3 + 2)%nat. now rewrite Hfrom3, E5.
  - exists st6, w5. change 6%nat with (3 + (2 + 1))%nat.
    rewrite Hfrom3, steps_add, E5. cbn [steps]. rewrite E6. auto.
Qed.

Lemma long_report_ends_the_run_example :
  run_due (graph_invoke (build_multi_agent_graph long_answers fixed_clock)
             (input_of_query (lit "Evaluate Company X")) 5)
    = [n_consensus_check] ∧
  ∃ st w,
    graph_invoke (build_multi_agent_graph long_answers fixed_clock)
      (input_of_query (lit "Evaluate Company X")) 6
      = Finished st w ∧
    revision_count st = Val 0 ∧
    consensus_reached st = Val true.
Proof.
  refine (long_report_ends_the_run long_answers fixed_clock
            (input_of_query (lit "Evaluate Company X")) _ eq_refl _).
  - intros r. reflexivity.
  - intros k task. vm_compute. reflexivity.
Defined.

(** One pass of the loop when the stored report is short and the count is
    below 2: three supersteps later the review is due again and the count
    is one more. *)
Lemma short_report_revises (agent_invoke : oracle) (now : clock) st w n msgs :
  (∀ k task,
     Z.of_nat (length (stored_report (agent_invoke k senior_agent task))) <= 500) →
  messages st = Some msgs →
  get (revision_count st) (Some 0) = Some n →
  n < 2 →
  ∃ st' w' msgs',
    steps (build_multi_agent_graph agent_invoke now) 3
      (Running st [n_peer_review] w)
    = Running st' [n_peer_review] w' ∧
    revision_count st' = Val (n + 1) ∧
    messages st' = Some msgs'.
Proof.
  intros Hshort Hm Hn Hlt.
  destruct (review_and_synthesis agent_invoke now st w msgs Hm)
    as (st2 & w2 & k & task & E2 & Hr2 & Hrc2 & (m2 & Hm2)).
  assert (get (revision_count st2) (Some 0) = Some n) as Hn2 by now rewrite Hrc2.
  destruct (gate_after_report agent_invoke now st2 w2 n _ m2 Hn2 Hr2 Hm2)
    as (st3 & E3 & Hrc3 & _ & _ & Hm3).
  assert (revises n (stored_report (agent_invoke k senior_agent task)) = true) as Hrev.
  { unfold revises. specialize (Hshort k task).
    destruct (Z.ltb_spec n 2); [|lia].
    destruct (Z.leb_spec
                (Z.of_nat (length (stored_report (agent_invoke k senior_agent task))))
                500); [reflexivity | lia]. }
  rewrite Hrev in E3, Hrc3.
  exists st3, w2, m2. change 3%nat with (2 + 1)%nat.
  rewrite steps_add, E2. cbn [steps]. rewrite E3. auto.
Qed.

(** X23. When the three analyses succeed on an input without a revision
    count and every report the synthesis stores has at most 500 characters,
    as the error text of a failed synthesis usually has, the loop of review,
    synthesis and gate runs three times: the run is not over after eleven
    supersteps, and the twelfth ends it with consensus set and a count
    of 2. *)
Theorem short_reports_use_all_revisions (agent_invoke : oracle) (now : clock)
    (input : MultiAgentState) :
  (∀ r, raises (agent_invoke (role_index r) (role_agent r)
                  (role_task r (after_coordinator now input))) = false) →
  revision_count input = Absent →
  (∀ k task,
     Z.of_nat (length (stored_report (agent_invoke k senior_agent task))) <= 500) →
  run_due (graph_invoke (build_multi_agent_graph agent_invoke now) input 6)
    = [n_peer_review] ∧
  run_due (graph_invoke (build_multi_agent_graph agent_invoke now) input 9)
    = [n_peer_review] ∧
  run_due (graph_invoke (build_multi_agent_graph agent_invoke now) input 11)
    = [n_consensus_check] ∧
  ∃ st w,
    graph_invoke (build_multi_agent_graph agent_invoke now) input 12
      = Finished st w ∧
    revision_count st = Val 2 ∧
    consensus_reached st = Val true.
Proof.
  intros Hok Habs Hshort.
  destruct (review_due_after_three agent_invoke now input Hok)
    as (st3 & w3 & msgs & E3 & Hm3 & Hrc3).
  assert (get (revision_count st3) (Some 0) = Some 0) as Hn3
    by now rewrite Hrc3, Habs.
  destruct (short_report_revises agent_invoke now st3 w3 0 msgs Hshort Hm3 Hn3)
    as (st6 & w6 & m6 & E6 & Hrc6 & Hm6); [lia|].
  assert (get (revision_count st6) (Some 0) = Some 1) as Hn6 by now rewrite Hrc6.
  destruct (short_report_revises agent_invoke now st6 w6 1 m6 Hshort Hm6 Hn6)
    as (st9 & w9 & m9 & E9 & Hrc9 & Hm9); [lia|].
  assert (get (revision_count st9) (Some 0) = Some 2) as Hn9 by now rewrite Hrc9.
  destruct (review_and_synthesis agent_invoke now st9 w9 m9 Hm9)
    as (st11 & w11 & k & task & E11 & Hr11 & Hrc11 & (m11 & Hm11)).
  assert (get (revision_count st11) (Some 0) = Some 2) as Hn11 by now rewrite Hrc11.
  destruct (gate_after_report agent_invoke now st11 w11 2 _ m11 Hn11 Hr11 Hm11)
    as (st12 & E12 & Hrc12 & Hc12 & _).
  change (revises 2 (stored_report (agent_invoke k senior_agent task)))
    with false in E12, Hrc12, Hc12.
  assert (∀ m, graph_invoke (build_multi_agent_graph agent_invoke now) input (3 + m)
               = steps (build_multi_agent_graph agent_invoke now) m
                   (Running st3 [n_peer_review] w3)) as Hfrom3.
  { intros m. unfold graph_invoke in *. now rewrite steps_add, E3. }
  split; [|split; [|split]].
  - change 6%nat with (3 + 3)%nat. now rewrite Hfrom3, E6.
  - change 9%nat with (3 + (3 + 3))%nat. now rewrite Hfrom3, steps_add, E6, E9.
  - change 11%nat with (3 + (3 + (3 + 2)))%nat.
    now rewrite Hfrom3, steps_add, E6, steps_add, E9, E11.
  - exists st12, w11. change 12%nat with (3 + (3 + (3 + (2 + 1))))%nat.
    rewrite Hfrom3, steps_add, E6, steps_add, E9, steps_add, E11.
    cbn [steps]. rewrite E12. auto.
Qed.

Lemma short_reports_use_all_revisions_example :
  let g := build_multi_agent_graph senior_raises fixed_clock in
  let input := input_of_query (lit "Evaluate Company X") in
  run_due (graph_invoke g input 6) = [n_peer_review] ∧
  run_due (graph_invoke g input 9) = [n_peer_review] ∧
  run_due (graph_invoke g input 11) = [n_consensus_check] ∧
  ∃ st w,
    graph_invoke g input 12 = Finished st w ∧
    revision_count st = Val 2 ∧
    consensus_reached st = Val true.
Proof.
  refine (short_reports_use_all_revisions senior_raises fixed_clock
            (input_of_query (lit "Evaluate Company X")) _ eq_refl _).
  - intros r. destruct r; reflexivity.
  - intros k task. vm_compute. discriminate.
Defined.

Lemma successful_run_finishes_example :
  ∃ st w k,
    graph_invoke (build_multi_agent_graph senior_raises fixed_clock)
      (input_of_query (lit "Evaluate Company X")) 12
      = Finished st w ∧
    consensus_reached st = Val true ∧
    revision_count st = Val k ∧ 0 <= k <= 2.
Proof.
  refine (successful_run_finishes senior_raises fixed_clock
            (input_of_query (lit "Evaluate Company X")) _ eq_refl).
  intros r. destruct r; reflexivity.
Defined.

(** X24. In the graph the review is never skipped: from the second superstep
    on the text joined from the analyses is not empty, since each analysis
    node has added an entry that opens with its tag, so a review that runs
    on such a state invokes the three reviewing agents. *)
Theorem review_is_never_skipped (agent_invoke : oracle) (now : clock)
    (input : MultiAgentState) (n0 : Z) (n : nat) :
  get (revision_count input) (Some 0) = Some n0 →
  (2 <= n)%nat →
  ∃ st,
    run_state (graph_invoke (build_multi_agent_graph agent_invoke now) input n)
      = Some st ∧
    truthy (Some (combined_analysis st)) = true ∧
    ∀ w, invocations (snd (peer_review_node agent_invoke now st w))
         = invocations w ++ review_invocations (combined_analysis st).
Proof.
  intros Hn0 Hn.
  destruct (run_after_fan_out agent_invoke now input n0 Hn0)
    as (st2 & b1 & b2 & b3 & _ & Ha & _ & Hrun).
  replace n with (2 + (n - 2))%nat by lia.
  destruct (after_fan_out_state st2 _ (Hrun (n - 2)%nat))
    as (_ & st & -> & _ & Hs & _).
  exists st. split; [reflexivity|].
  assert (truthy (Some (combined_analysis st)) = true) as Hc.
  { unfold combined_analysis. rewrite Hs, Ha. cbn [default]. unfold id.
    apply join_truthy. reflexivity. }
  split; [exact Hc|]. intros w.
  now rewrite (peer_review_run agent_invoke now st w Hc).
Qed.

Lemma review_is_never_skipped_example :
  ∃ st,
    run_state (graph_invoke (build_multi_agent_graph fundamental_raises fixed_clock)
                 empty_state 7)
      = Some st ∧
    truthy (Some (combined_analysis st)) = true ∧
    ∀ w, invocations (snd (peer_review_node fundamental_raises fixed_clock st w))
         = invocations w ++ review_invocations (combined_analysis st).
Proof.
  refine (review_is_never_skipped fundamental_raises fixed_clock empty_state 0 7
            eq_refl _).
  lia.
Defined.
